(** * simplismart-kube: a shallow embedding of [src/simplismart-kube.py]

    The script drives [kubectl], [helm] and the file system.  Everything it
    cannot decide by itself (what a sub-process answers, whether a file can be
    opened, what the JSON and YAML libraries compute) is an input of the
    model; everything it decides (which commands it issues, in which order,
    which documents it writes, what it folds out of the answers, its exit
    code) is computed by the definitions below.

    Conventions.
    - Python values that travel through [json] and [yaml] are [pyval]s.  JSON
      numbers are integers; floating-point literals are outside the model.
    - Console output ([print]) is not modelled.
    - A process is a receiver object ([self]) plus the list of effects it has
      performed so far; the environment answers as a function of that
      history, so that a command may succeed once and fail later. *)

From Stdlib Require Import String Ascii ZArith List Bool Lia.
Import ListNotations.

Local Open Scope string_scope.
Local Open Scope Z_scope.

Set Warnings "-register-all".

(* ------------------------------------------------------------------------ *)
(** ** Python values *)

Inductive pyval : Type :=
| PNone
| PBool (b : bool)
| PInt (z : Z)
| PStr (s : string)
| PList (l : list pyval)
| PDict (kvs : list (string * pyval)).

(** The exceptions the script can meet.  [SystemExit] is what [exit(n)]
    raises; it is not an [Exception], so [except Exception] lets it through. *)
Inductive PyExn : Type :=
| CalledProcessError
| OSError
| KeyError
| TypeError
| AttributeError
| JSONDecodeError
| SystemExit (code : Z).

Inductive result (A : Type) : Type :=
| Ok (a : A)
| Raise (e : PyExn).
Arguments Ok {A} a.
Arguments Raise {A} e.

(** Python's truth value of an object, as tested by [if], [not] and [all]. *)
Definition truthy (v : pyval) : bool :=
  match v with
  | PNone => false
  | PBool b => b
  | PInt z => negb (z =? 0)
  | PStr s => negb (s =? "")%string
  | PList l => match l with [] => false | _ => true end
  | PDict kvs => match kvs with [] => false | _ => true end
  end.

(** Truth value of an optional string ([None] and [""] are both false). *)
Definition str_truthy (o : option string) : bool :=
  match o with
  | Some s => negb (s =? "")%string
  | None => false
  end.

Fixpoint assoc (k : string) (kvs : list (string * pyval)) : option pyval :=
  match kvs with
  | [] => None
  | (k', v) :: rest => if (k =? k')%string then Some v else assoc k rest
  end.

(** [d[k] = v] on a dict: replace in place, or append a new key. *)
Fixpoint assoc_set (k : string) (v : pyval) (kvs : list (string * pyval))
  : list (string * pyval) :=
  match kvs with
  | [] => [(k, v)]
  | (k', v') :: rest =>
      if (k =? k')%string then (k', v) :: rest else (k', v') :: assoc_set k v rest
  end.

(** [x[k]] with a string key. *)
Definition subscript (x : pyval) (k : string) : result pyval :=
  match x with
  | PDict kvs => match assoc k kvs with Some v => Ok v | None => Raise KeyError end
  | _ => Raise TypeError
  end.

(** [x.get(k, default)]: only dicts have the method. *)
Definition py_get (x : pyval) (k : string) (default : pyval) : result pyval :=
  match x with
  | PDict kvs => match assoc k kvs with Some v => Ok v | None => Ok default end
  | _ => Raise AttributeError
  end.

Fixpoint chars (s : string) : list pyval :=
  match s with
  | EmptyString => []
  | String c rest => PStr (String c EmptyString) :: chars rest
  end.

(** [iter(x)]: lists yield their items, dicts their keys, strings their
    characters; nothing else is iterable. *)
Definition py_iter (x : pyval) : result (list pyval) :=
  match x with
  | PList l => Ok l
  | PDict kvs => Ok (map (fun kv => PStr (fst kv)) kvs)
  | PStr s => Ok (chars s)
  | _ => Raise TypeError
  end.

(** [acc + v] for an integer accumulator, as [sum] performs it. *)
Definition py_add (acc : Z) (v : pyval) : result Z :=
  match v with
  | PInt z => Ok (acc + z)
  | PBool b => Ok (acc + Z.b2z b)
  | _ => Raise TypeError
  end.

(** [needle in hay] on strings. *)
Fixpoint str_contains (needle hay : string) : bool :=
  if String.prefix needle hay then true
  else match hay with
       | EmptyString => false
       | String _ rest => str_contains needle rest
       end.

Definition dquote : string := String "034"%char EmptyString.

(* ------------------------------------------------------------------------ *)
(** ** The environment and the process state *)

Record CompletedProcess : Type := mkCompleted {
  returncode : Z;
  stdout : string
}.

Inductive Event : Type :=
| Exec (command : string)                  (* subprocess.run(command, shell=True) *)
| Write (path : string) (content : string). (* open(path, 'w') + yaml.dump *)

Record World : Type := mkWorld {
  os_name_nt : bool;
  subprocess_run : list Event -> string -> option CompletedProcess;
  path_exists : string -> bool;
  open_write : list Event -> string -> bool;
  read_file : string -> option string
}.

Record KubernetesAutomation : Type := mkSelf {
  kubeconfig : option string;
  namespace : string;
  helm_installed : bool;
  keda_installed : bool;
  helm_path : string
}.

Record Proc : Type := mkProc {
  self : KubernetesAutomation;
  trace : list Event
}.

Definition set_helm_installed (b : bool) (s : KubernetesAutomation) :=
  mkSelf (kubeconfig s) (namespace s) b (keda_installed s) (helm_path s).
Definition set_keda_installed (b : bool) (s : KubernetesAutomation) :=
  mkSelf (kubeconfig s) (namespace s) (helm_installed s) b (helm_path s).
Definition set_helm_path (h : string) (s : KubernetesAutomation) :=
  mkSelf (kubeconfig s) (namespace s) (helm_installed s) (keda_installed s) h.

(* ------------------------------------------------------------------------ *)
(** ** Two small monads: exceptions, and exceptions over the process state *)

Class Monad (m : Type -> Type) : Type := {
  ret : forall {A}, A -> m A;
  bind : forall {A B}, m A -> (A -> m B) -> m B
}.

Declare Scope py_scope.
Delimit Scope py_scope with py.
Notation "x <- c1 ;; c2" := (bind c1 (fun x => c2))
  (at level 100, c1 at next level, right associativity) : py_scope.
Notation "c1 ;;; c2" := (bind c1 (fun _ => c2))
  (at level 100, right associativity) : py_scope.
Local Open Scope py_scope.

#[export] Instance result_Monad : Monad result := {
  ret := fun A a => Ok a;
  bind := fun A B c k => match c with Ok a => k a | Raise e => Raise e end
}.

Definition M (A : Type) : Type := World -> Proc -> result A * Proc.

#[export] Instance M_Monad : Monad M := {
  ret := fun A a => fun _ p => (Ok a, p);
  bind := fun A B c k => fun w p =>
            match c w p with
            | (Ok a, p') => k a w p'
            | (Raise e, p') => (Raise e, p')
            end
}.

Definition lift {A} (r : result A) : M A := fun _ p => (r, p).
Definition raise {A} (e : PyExn) : M A := fun _ p => (Raise e, p).
Definition get_self : M KubernetesAutomation := fun _ p => (Ok (self p), p).
Definition modify_self (f : KubernetesAutomation -> KubernetesAutomation) : M unit :=
  fun _ p => (Ok tt, mkProc (f (self p)) (trace p)).
Definition log (e : Event) (p : Proc) : Proc := mkProc (self p) (trace p ++ [e]).

Definition is_Exception (e : PyExn) : bool :=
  match e with SystemExit _ => false | _ => true end.

(** [try: body / except Exception: handler] *)
Definition try_except_Exception {A} (body : M A) (handler : M A) : M A :=
  fun w p =>
    match body w p with
    | (Raise e, p') => if is_Exception e then handler w p' else (Raise e, p')
    | r => r
    end.

(** [try: body / except: handler] (catches everything) *)
Definition try_except_all {A} (body : M A) (handler : M A) : M A :=
  fun w p =>
    match body w p with
    | (Raise e, p') => handler w p'
    | r => r
    end.

Fixpoint mapM {m} `{Monad m} {A B} (f : A -> m B) (l : list A) : m (list B) :=
  match l with
  | [] => ret []
  | x :: rest => y <- f x ;; ys <- mapM f rest ;; ret (y :: ys)
  end.

(* ------------------------------------------------------------------------ *)
(** ** The script *)

Section Script.

(** The two library entry points the script calls on data.  [json.loads]
    either decodes a text or raises; [yaml.dump] renders a value. *)
Variable json_loads : string -> option pyval.
Variable yaml_dump : pyval -> string.

Definition loads (text : string) : M pyval :=
  match json_loads text with
  | Some v => ret v
  | None => raise JSONDecodeError
  end.

(** [with open(path, 'w') as f: yaml.dump(doc, f)] *)
Definition dump_to_file (path : string) (doc : pyval) : M unit :=
  fun w p =>
    if open_write w (trace p) path
    then (Ok tt, log (Write path (yaml_dump doc)) p)
    else (Raise OSError, p).

(** What [run_command] hands to the shell: on Windows ([os.name == 'nt']) the
    command is wrapped in a PowerShell call. *)
Definition shell_command (w : World) (command : string) : string :=
  if os_name_nt w
  then "powershell -Command " ++ dquote ++ command ++ dquote
  else command.

(** [subprocess.run] answers [None] when it raises by itself; with [check] a
    non-zero status raises [CalledProcessError], which [run_command] prints
    and re-raises. *)
Definition run_command (command : string) (check : bool) : M CompletedProcess :=
  fun w p =>
    let command := shell_command w command in
    let p' := log (Exec command) p in
    match subprocess_run w (trace p) command with
    | Some r =>
        if check && negb (returncode r =? 0)
        then (Raise CalledProcessError, p')
        else (Ok r, p')
    | None => (Raise OSError, p')
    end.

Definition possible_paths : list string :=
  [ "C:\Program Files\helm.exe";
    "C:\ProgramData\chocolatey\bin\helm.exe";
    "C:\Program Files\Helm\bin\helm.exe" ].

Fixpoint first_existing (w : World) (paths : list string) : option string :=
  match paths with
  | [] => None
  | path :: rest =>
      if path_exists w path then Some (dquote ++ path ++ dquote)
      else first_existing w rest
  end.

Definition find_helm_path : M string :=
  try_except_Exception
    (result <- run_command "where helm" false ;;
     if returncode result =? 0 then ret "helm"
     else fun w p =>
            match first_existing w possible_paths with
            | Some path => (Ok path, p)
            | None => (Ok "helm", p)
            end)
    (ret "helm").

(** [__init__] *)
Definition init (kubeconfig : option string) (namespace : string) : M unit :=
  modify_self (fun _ => mkSelf kubeconfig namespace false false "") ;;;
  path <- find_helm_path ;;
  modify_self (set_helm_path path).

(** The idiom [if self.kubeconfig: cmd += f" --kubeconfig={self.kubeconfig}"],
    and its variant with the path between double quotes. *)
Definition with_kubeconfig (s : KubernetesAutomation) (cmd : string) : string :=
  match kubeconfig s with
  | Some k => if str_truthy (Some k) then cmd ++ " --kubeconfig=" ++ k else cmd
  | None => cmd
  end.

Definition with_kubeconfig_quoted (s : KubernetesAutomation) (cmd : string) : string :=
  match kubeconfig s with
  | Some k =>
      if str_truthy (Some k) then cmd ++ " --kubeconfig=" ++ dquote ++ k ++ dquote
      else cmd
  | None => cmd
  end.

Definition connect_to_cluster : M bool :=
  try_except_Exception
    (s <- get_self ;;
     run_command (with_kubeconfig s "kubectl cluster-info") true ;;;
     ret true)
    (ret false).

Definition install_helm : M bool :=
  try_except_Exception
    (s <- get_self ;;
     result <- run_command (helm_path s ++ " version") false ;;
     if returncode result =? 0 then
       modify_self (set_helm_installed true) ;;;
       ret true
     else
       try_except_all
         (run_command "choco install kubernetes-helm -y" true ;;; ret tt)
         (run_command "winget install helm.helm" true ;;; ret tt) ;;;
       path <- find_helm_path ;;
       modify_self (set_helm_path path) ;;;
       s <- get_self ;;
       run_command (helm_path s ++ " version") true ;;;
       modify_self (set_helm_installed true) ;;;
       ret true)
    (ret false).

Definition install_keda : M bool :=
  s <- get_self ;;
  if negb (helm_installed s) then ret false
  else
    try_except_Exception
      (run_command
         (helm_path s ++ " repo add kedacore https://kedacore.github.io/charts") true ;;;
       run_command (helm_path s ++ " repo update") true ;;;
       run_command
         (with_kubeconfig_quoted s
            (helm_path s ++ " install keda kedacore/keda --namespace keda --create-namespace"))
         true ;;;
       result <- run_command (with_kubeconfig_quoted s "kubectl get pods -n keda") true ;;
       if str_contains "keda-operator" (stdout result) then
         modify_self (set_keda_installed true) ;;;
         ret true
       else ret false)
      (ret false).

Definition required_crds : list string :=
  [ "scaledobjects.keda.sh"; "triggerauthentications.keda.sh" ].

(** [main] never calls this method; it is part of the class all the same. *)
Definition verify_keda_installation : M bool :=
  try_except_Exception
    (s <- get_self ;;
     result <- run_command (with_kubeconfig s "kubectl get pods -n keda") true ;;
     if negb (str_contains "keda-operator" (stdout result))
        || negb (str_contains "Running" (stdout result))
     then ret false
     else
       result <- run_command (with_kubeconfig s "kubectl get deployments -n keda") true ;;
       if negb (str_contains "keda-operator" (stdout result))
          || negb (str_contains "1/1" (stdout result))
       then ret false
       else
         result <- run_command (with_kubeconfig s "kubectl get crd") true ;;
         let missing_crds :=
           filter (fun crd => negb (str_contains crd (stdout result))) required_crds in
         match missing_crds with
         | _ :: _ => ret false
         | [] => ret true
         end)
    (ret false).

(** The three dict literals of [create_deployment]. *)
Definition deployment_manifest (namespace name image tag : string) (replicas : Z)
  (cpu_request cpu_limit memory_request memory_limit : string) (ports : list Z) : pyval :=
  PDict
    [ ("apiVersion", PStr "apps/v1");
      ("kind", PStr "Deployment");
      ("metadata", PDict [("name", PStr name); ("namespace", PStr namespace)]);
      ("spec", PDict
         [ ("replicas", PInt replicas);
           ("selector", PDict [("matchLabels", PDict [("app", PStr name)])]);
           ("template", PDict
              [ ("metadata", PDict [("labels", PDict [("app", PStr name)])]);
                ("spec", PDict
                   [ ("containers", PList
                        [ PDict
                            [ ("name", PStr name);
                              ("image", PStr (image ++ ":" ++ tag));
                              ("ports",
                                PList (map (fun p => PDict [("containerPort", PInt p)]) ports));
                              ("resources", PDict
                                 [ ("requests", PDict
                                      [ ("cpu", PStr cpu_request);
                                        ("memory", PStr memory_request) ]);
                                   ("limits", PDict
                                      [ ("cpu", PStr cpu_limit);
                                        ("memory", PStr memory_limit) ]) ]) ] ]) ]) ]) ]) ].

Definition service_manifest (namespace name : string) (ports : list Z) : pyval :=
  PDict
    [ ("apiVersion", PStr "v1");
      ("kind", PStr "Service");
      ("metadata", PDict [("name", PStr (name ++ "-service")); ("namespace", PStr namespace)]);
      ("spec", PDict
         [ ("selector", PDict [("app", PStr name)]);
           ("ports",
             PList (map (fun p => PDict [("port", PInt p); ("targetPort", PInt p)]) ports));
           ("type", PStr "ClusterIP") ]) ].

Definition scaled_object_manifest (namespace name : string)
  (minReplicaCount maxReplicaCount triggers : pyval) : pyval :=
  PDict
    [ ("apiVersion", PStr "keda.sh/v1alpha1");
      ("kind", PStr "ScaledObject");
      ("metadata", PDict [("name", PStr (name ++ "-scaled")); ("namespace", PStr namespace)]);
      ("spec", PDict
         [ ("scaleTargetRef", PDict
              [ ("apiVersion", PStr "apps/v1");
                ("kind", PStr "Deployment");
                ("name", PStr name) ]);
           ("minReplicaCount", minReplicaCount);
           ("maxReplicaCount", maxReplicaCount);
           ("triggers", triggers) ]) ].

Definition create_deployment (name image tag : string) (replicas : Z)
  (cpu_request cpu_limit memory_request memory_limit : string)
  (ports : option (list Z)) (keda_config : option pyval) : M bool :=
  let ports := match ports with None => [80] | Some l => l end in
  let keda_config := match keda_config with None => PDict [] | Some c => c end in
  try_except_Exception
    (s <- get_self ;;
     let deployment :=
       deployment_manifest (namespace s) name image tag replicas
         cpu_request cpu_limit memory_request memory_limit ports in
     let deployment_file := name ++ "-deployment.yaml" in
     dump_to_file deployment_file deployment ;;;
     run_command (with_kubeconfig s ("kubectl apply -f " ++ deployment_file)) true ;;;
     (match ports with
      | [] => ret tt
      | _ :: _ =>
          let service := service_manifest (namespace s) name ports in
          let service_file := name ++ "-service.yaml" in
          dump_to_file service_file service ;;;
          run_command (with_kubeconfig s ("kubectl apply -f " ++ service_file)) true ;;;
          ret tt
      end) ;;;
     (if truthy keda_config && keda_installed s then
        min_replicas <- lift (py_get keda_config "min_replicas" (PInt 1)) ;;
        max_replicas <- lift (py_get keda_config "max_replicas" (PInt 10)) ;;
        triggers <- lift (py_get keda_config "triggers" (PList [])) ;;
        let scaled_object :=
          scaled_object_manifest (namespace s) name min_replicas max_replicas triggers in
        let scaled_object_file := name ++ "-scaledobject.yaml" in
        dump_to_file scaled_object_file scaled_object ;;;
        run_command (with_kubeconfig s ("kubectl apply -f " ++ scaled_object_file)) true ;;;
        ret tt
      else ret tt) ;;;
     ret true)
    (ret false).

(** [all(f(c) for c in l)]: stops at the first false item. *)
Fixpoint py_all (f : pyval -> result pyval) (l : list pyval) : result bool :=
  match l with
  | [] => Ok true
  | c :: rest => v <- f c ;; if truthy v then py_all f rest else Ok false
  end.

(** [sum(f(c) for c in l)], from the accumulator [acc]. *)
Fixpoint py_sum (f : pyval -> result pyval) (acc : Z) (l : list pyval) : result Z :=
  match l with
  | [] => Ok acc
  | c :: rest => v <- f c ;; acc' <- py_add acc v ;; py_sum f acc' rest
  end.

(** The body of the loop over [pods["items"]]. *)
Definition pod_status (pod : pyval) : result pyval :=
  metadata <- subscript pod "metadata" ;;
  pod_name <- subscript metadata "name" ;;
  st <- subscript pod "status" ;;
  phase <- subscript st "phase" ;;
  st <- subscript pod "status" ;;
  statuses <- py_get st "containerStatuses" (PList []) ;;
  cs <- py_iter statuses ;;
  ready <- py_all (fun c => subscript c "ready") cs ;;
  st <- subscript pod "status" ;;
  statuses <- py_get st "containerStatuses" (PList []) ;;
  cs <- py_iter statuses ;;
  restarts <- py_sum (fun c => subscript c "restartCount") 0 cs ;;
  ret (PDict
         [ ("name", pod_name);
           ("status", phase);
           ("ready", PBool ready);
           ("restarts", PInt restarts) ]).

(** The loop [for pod in pods["items"]: ... pod_statuses.append(pod_status)]. *)
Definition pod_statuses (pods : pyval) : result (list pyval) :=
  items <- subscript pods "items" ;;
  items <- py_iter items ;;
  mapM pod_status items.

Definition deployment_status_field (deployment : pyval) (key : string) (default : pyval)
  : result pyval :=
  st <- subscript deployment "status" ;; py_get st key default.

Definition get_deployment_status (name : string) : M (option pyval) :=
  try_except_Exception
    (s <- get_self ;;
     result <- run_command
                 (with_kubeconfig s
                    ("kubectl get deployment " ++ name ++ " -n " ++ namespace s ++ " -o json"))
                 true ;;
     deployment <- loads (stdout result) ;;
     ready_replicas <- lift (deployment_status_field deployment "readyReplicas" (PInt 0)) ;;
     available_replicas <-
       lift (deployment_status_field deployment "availableReplicas" (PInt 0)) ;;
     unavailable_replicas <-
       lift (deployment_status_field deployment "unavailableReplicas" (PInt 0)) ;;
     conditions <- lift (deployment_status_field deployment "conditions" (PList [])) ;;
     let status :=
       [ ("name", PStr name);
         ("ready_replicas", ready_replicas);
         ("available_replicas", available_replicas);
         ("unavailable_replicas", unavailable_replicas);
         ("conditions", conditions) ] in
     result <- run_command
                 (with_kubeconfig s
                    ("kubectl get pods -n " ++ namespace s ++ " -l app=" ++ name ++ " -o json"))
                 true ;;
     pods <- loads (stdout result) ;;
     pod_statuses <- lift (pod_statuses pods) ;;
     ret (Some (PDict (assoc_set "pods" (PList pod_statuses) status))))
    (ret None).

(** The parsed command line: what [parser.parse_args()] returns.  The parser
    itself is not modelled; [main] below is the script from the line after
    [parse_args] on.  A command line the parser refuses ends the process with
    status 2 (status 0 for [--help]) before any of that code runs. *)
Inductive Command : Type :=
| CmdConnect
| CmdInstall (helm keda : bool)
| CmdDeploy (name image tag : string) (replicas : Z)
    (cpu_request cpu_limit memory_request memory_limit : string)
    (ports : list Z) (keda_config : option string)
| CmdStatus (name : string).

Record Args : Type := mkArgs {
  args_kubeconfig : option string;
  args_namespace : string;
  args_command : Command
}.

Definition exit {A} (code : Z) : M A := raise (SystemExit code).

(** [with open(path) as f: f.read()] *)
Definition read_text (path : string) : M string :=
  fun w p =>
    match read_file w path with
    | Some text => (Ok text, p)
    | None => (Raise OSError, p)
    end.

Definition main (args : Args) : M unit :=
  init (args_kubeconfig args) (args_namespace args) ;;;
  match args_command args with
  | CmdConnect =>
      ok <- connect_to_cluster ;;
      if negb ok then exit 1 else ret tt
  | CmdInstall helm keda =>
      (if helm then ok <- install_helm ;; if negb ok then exit 1 else ret tt
       else ret tt) ;;;
      (if keda then ok <- install_keda ;; if negb ok then exit 1 else ret tt
       else ret tt)
  | CmdDeploy name image tag replicas cpu_request cpu_limit memory_request memory_limit
      ports keda_path =>
      keda_config <-
        (match keda_path with
         | Some path =>
             if str_truthy (Some path) then
               try_except_Exception
                 (text <- read_text path ;; loads text)
                 (exit 1)
             else ret (PDict [])
         | None => ret (PDict [])
         end) ;;
      success <- create_deployment name image tag replicas
                   cpu_request cpu_limit memory_request memory_limit
                   (Some ports) (Some keda_config) ;;
      if negb success then exit 1 else ret tt
  | CmdStatus name =>
      status <- get_deployment_status name ;;
      match status with
      | Some v => if truthy v then ret tt else exit 1
      | None => exit 1
      end
  end.

(** What the operating system sees of one run of the script: the exit status
    of the interpreter and the effects performed.  An exception that reaches
    the top level ends the interpreter with status 1. *)
Definition new_proc : Proc := mkProc (mkSelf None "" false false "") [].

Definition exit_code (r : result unit) : Z :=
  match r with
  | Ok _ => 0
  | Raise (SystemExit code) => code
  | Raise _ => 1
  end.

Definition run_script (args : Args) (w : World) : Z * list Event :=
  let (r, p) := main args w new_proc in (exit_code r, trace p).

End Script.

(* ------------------------------------------------------------------------ *)
(** ** Vocabulary of the properties *)

(** The command [c], issued after the effects [h], ends with status 0. *)
Definition command_ok (w : World) (h : list Event) (c : string) : bool :=
  match subprocess_run w h c with
  | Some r => returncode r =? 0
  | None => false
  end.

(** The shell command by which [create_deployment] submits [file]. *)
Definition apply_command (w : World) (s : KubernetesAutomation) (file : string) : string :=
  shell_command w (with_kubeconfig s ("kubectl apply -f " ++ file)).

Definition deployment_file (name : string) : string := name ++ "-deployment.yaml".
Definition service_file (name : string) : string := name ++ "-service.yaml".
Definition scaled_object_file (name : string) : string := name ++ "-scaledobject.yaml".

(** The commands executed and the files written among some effects. *)
Fixpoint executed (evs : list Event) : list string :=
  match evs with
  | [] => []
  | Exec c :: rest => c :: executed rest
  | Write _ _ :: rest => executed rest
  end.

Fixpoint written (evs : list Event) : list string :=
  match evs with
  | [] => []
  | Exec _ :: rest => written rest
  | Write path _ :: rest => path :: written rest
  end.

Definition prefix_of {A} (l1 l2 : list A) : Prop := exists rest, l2 = (l1 ++ rest)%list.

(** The effects of a deploy in which nothing fails: each manifest is written,
    then applied; the service exists when there are ports, the scaled object
    when the policy is a non-empty dict and the controller is installed. *)
Definition deployment_plan (yaml_dump : pyval -> string) (w : World)
  (s : KubernetesAutomation) (name image tag : string) (replicas : Z)
  (cpu_request cpu_limit memory_request memory_limit : string)
  (ports : list Z) (keda_config : pyval) : list Event :=
  ([ Write (deployment_file name)
      (yaml_dump (deployment_manifest (namespace s) name image tag replicas
                    cpu_request cpu_limit memory_request memory_limit ports));
    Exec (apply_command w s (deployment_file name)) ]
  ++ (match ports with
      | [] => []
      | _ :: _ =>
          [ Write (service_file name) (yaml_dump (service_manifest (namespace s) name ports));
            Exec (apply_command w s (service_file name)) ]
      end)
  ++ (if truthy keda_config && keda_installed s then
        match keda_config with
        | PDict kvs =>
            [ Write (scaled_object_file name)
                (yaml_dump
                   (scaled_object_manifest (namespace s) name
                      (match assoc "min_replicas" kvs with Some v => v | None => PInt 1 end)
                      (match assoc "max_replicas" kvs with Some v => v | None => PInt 10 end)
                      (match assoc "triggers" kvs with Some v => v | None => PList [] end)));
              Exec (apply_command w s (scaled_object_file name)) ]
        | _ => []
        end
      else []))%list.

(** Carrying out a list of effects in order, stopping at the first one the
    environment refuses: the effects performed, and whether all were. *)
Fixpoint run_plan (w : World) (h : list Event) (plan : list Event) : list Event * bool :=
  match plan with
  | [] => ([], true)
  | Write path content :: rest =>
      if open_write w h path then
        let (evs, ok) := run_plan w (h ++ [Write path content]) rest in
        (Write path content :: evs, ok)
      else ([], false)
  | Exec c :: rest =>
      if command_ok w h c then
        let (evs, ok) := run_plan w (h ++ [Exec c]) rest in
        (Exec c :: evs, ok)
      else ([Exec c], false)
  end.

(** The policy is usable where it is consulted: [.get] exists on dicts only. *)
Definition policy_ok (s : KubernetesAutomation) (keda_config : pyval) : bool :=
  negb (truthy keda_config && keda_installed s)
  || match keda_config with PDict _ => true | _ => false end.

(** The arguments [create_deployment] works with once its defaults are in. *)
Definition effective_ports (ports : option (list Z)) : list Z :=
  match ports with None => [80] | Some l => l end.

Definition effective_policy (keda_config : option pyval) : pyval :=
  match keda_config with None => PDict [] | Some c => c end.

(** The receiver as [__init__] leaves it, up to the helm path. *)
Definition fresh_self (kubeconfig : option string) (namespace helm : string)
  : KubernetesAutomation :=
  mkSelf kubeconfig namespace false false helm.

Definition where_helm (w : World) : Event := Exec (shell_command w "where helm").

(** The effects a computation added when it took the process from [p] to [p']. *)
Definition effects_of (p p' : Proc) : list Event :=
  skipn (length (trace p)) (trace p').


(** The two queries of [get_deployment_status], as handed to the shell. *)
Definition deployment_query (w : World) (s : KubernetesAutomation) (name : string) : string :=
  shell_command w
    (with_kubeconfig s
       ("kubectl get deployment " ++ name ++ " -n " ++ namespace s ++ " -o json")).

Definition pods_query (w : World) (s : KubernetesAutomation) (name : string) : string :=
  shell_command w
    (with_kubeconfig s
       ("kubectl get pods -n " ++ namespace s ++ " -l app=" ++ name ++ " -o json")).

(** The part of the status record that comes from the deployment query. *)
Definition status_header (name : string) (deployment : pyval)
  : result (list (string * pyval)) :=
  ready_replicas <- deployment_status_field deployment "readyReplicas" (PInt 0) ;;
  available_replicas <- deployment_status_field deployment "availableReplicas" (PInt 0) ;;
  unavailable_replicas <-
    deployment_status_field deployment "unavailableReplicas" (PInt 0) ;;
  conditions <- deployment_status_field deployment "conditions" (PList []) ;;
  ret [ ("name", PStr name);
        ("ready_replicas", ready_replicas);
        ("available_replicas", available_replicas);
        ("unavailable_replicas", unavailable_replicas);
        ("conditions", conditions) ].

(** The container statuses of a pod, as both folds of [pod_status] read them. *)
Definition container_statuses (pod : pyval) : result (list pyval) :=
  st <- subscript pod "status" ;;
  statuses <- py_get st "containerStatuses" (PList []) ;;
  py_iter statuses.

(** The items of a pod list. *)
Definition pod_items (pods : pyval) : result (list pyval) :=
  items <- subscript pods "items" ;; py_iter items.

(** A container status reports ready: its ["ready"] entry is true. *)
Definition reports_ready (c : pyval) : bool :=
  match subscript c "ready" with
  | Ok v => truthy v
  | Raise _ => false
  end.

(** The restart count of a container status, as an addend of [sum]. *)
Definition restart_count (c : pyval) : Z :=
  match subscript c "restartCount" with
  | Ok (PInt z) => z
  | Ok (PBool b) => Z.b2z b
  | _ => 0
  end.

Definition total (l : list Z) : Z := fold_right Z.add 0 l.

(** Pure code raises ordinary exceptions only, never [SystemExit]. *)
Definition raises_only_exceptions {A} (r : result A) : Prop :=
  forall e, r = Raise e -> is_Exception e = true.

(** The readings under which the readiness flag and the restart count would
    be single values for the whole deployment: the folds taken over the
    container statuses of all matched pods together. *)
Definition all_container_statuses (items : list pyval) : list pyval :=
  flat_map (fun pod => match container_statuses pod with
                       | Ok cs => cs
                       | Raise _ => []
                       end) items.

Definition reports_global_flags (pods status : pyval) : Prop :=
  exists items entries,
    pod_items pods = Ok items /\
    subscript status "pods" = Ok (PList entries) /\
    forall entry,
      In entry entries ->
      subscript entry "ready"
      = Ok (PBool (forallb reports_ready (all_container_statuses items))) /\
      subscript entry "restarts"
      = Ok (PInt (total (map restart_count (all_container_statuses items)))).

(** Every [kubectl] command fails, whenever it is issued. *)
Definition kubectl_down (w : World) : Prop :=
  forall h c, command_ok w h (shell_command w ("kubectl " ++ c)) = false.

(** The connectivity check of [connect_to_cluster] fails, whenever it is made. *)
Definition connectivity_check_fails (w : World) (kubeconfig : option string) : Prop :=
  forall h,
    command_ok w h
      (shell_command w (with_kubeconfig (fresh_self kubeconfig "" "") "kubectl cluster-info"))
    = false.


(** The policy file of a [deploy] run can be read and decodes (or none is
    named). *)
Definition policy_loads (json_loads : string -> option pyval) (w : World)
  (keda_path : option string) : bool :=
  match keda_path with
  | Some path =>
      if str_truthy (Some path) then
        match read_file w path with
        | Some text =>
            match json_loads text with
            | Some _ => true
            | None => false
            end
        | None => false
        end
      else true
  | None => true
  end.

(** Field access in a nested document. *)
Fixpoint lookup_path (path : list string) (doc : pyval) : option pyval :=
  match path with
  | [] => Some doc
  | k :: rest =>
      match doc with
      | PDict kvs =>
          match assoc k kvs with
          | Some v => lookup_path rest v
          | None => None
          end
      | _ => None
      end
  end.

(** The commands of the remaining methods, as handed to the shell. *)
Definition cluster_info_command (w : World) (kubeconfig : option string) : string :=
  shell_command w (with_kubeconfig (fresh_self kubeconfig "" "") "kubectl cluster-info").

Definition helm_version_command (w : World) (helm : string) : string :=
  shell_command w (helm ++ " version").

Definition choco_command (w : World) : string :=
  shell_command w "choco install kubernetes-helm -y".

Definition winget_command (w : World) : string :=
  shell_command w "winget install helm.helm".

(** The four commands of [install_keda], in the order of the source. *)
Definition keda_commands (w : World) (s : KubernetesAutomation) : list string :=
  [ shell_command w (helm_path s ++ " repo add kedacore https://kedacore.github.io/charts");
    shell_command w (helm_path s ++ " repo update");
    shell_command w
      (with_kubeconfig_quoted s
         (helm_path s ++ " install keda kedacore/keda --namespace keda --create-namespace"));
    shell_command w (with_kubeconfig_quoted s "kubectl get pods -n keda") ].

(** The three queries of [verify_keda_installation]. *)
Definition keda_pods_query (w : World) (s : KubernetesAutomation) : string :=
  shell_command w (with_kubeconfig s "kubectl get pods -n keda").

Definition keda_deployments_query (w : World) (s : KubernetesAutomation) : string :=
  shell_command w (with_kubeconfig s "kubectl get deployments -n keda").

Definition crd_query (w : World) (s : KubernetesAutomation) : string :=
  shell_command w (with_kubeconfig s "kubectl get crd").

(** The answer to a command that completed with status 0. *)
Definition answer (w : World) (h : list Event) (c : string) : option string :=
  match subprocess_run w h c with
  | Some r => if returncode r =? 0 then Some (stdout r) else None
  | None => None
  end.

(** Manifests handled one after the other: each is written, then applied. *)
Fixpoint manifest_steps (w : World) (s : KubernetesAutomation)
  (manifests : list (string * string)) : list Event :=
  match manifests with
  | [] => []
  | (path, content) :: rest =>
      Write path content :: Exec (apply_command w s path) :: manifest_steps w s rest
  end.

(** The process as [__init__] leaves it at the start of a run. *)
Definition started (w : World) (kubeconfig : option string) (namespace : string) : Proc :=
  snd (init kubeconfig namespace w new_proc).

(* ------------------------------------------------------------------------ *)
(** ** Sample environments

    Concrete worlds on which the script is run in the examples below.  The
    sample decoder knows the two answers the sample cluster gives. *)

Definition completed (rc : Z) (out : string) : option CompletedProcess :=
  Some (mkCompleted rc out).

(** Every command exits with status 1; files can be written. *)
Definition unreachable_world : World :=
  mkWorld false (fun _ _ => completed 1 "") (fun _ => false) (fun _ _ => true)
    (fun _ => None).

(** Every command exits with status 0 and prints nothing. *)
Definition healthy_world : World :=
  mkWorld false (fun _ _ => completed 0 "") (fun _ => false) (fun _ _ => true)
    (fun _ => None).

(** The workload is applied, the service is refused. *)
Definition service_refused_world : World :=
  mkWorld false
    (fun _ c => if String.eqb c "kubectl apply -f web-service.yaml"
                then completed 1 "" else completed 0 "")
    (fun _ => false) (fun _ _ => true) (fun _ => None).

Definition container (ready : bool) (restarts : Z) : pyval :=
  PDict [("ready", PBool ready); ("restartCount", PInt restarts)].

Definition pod (name phase : string) (containers : option (list pyval)) : pyval :=
  PDict
    [ ("metadata", PDict [("name", PStr name)]);
      ("status", PDict
         (("phase", PStr phase) ::
          match containers with
          | Some cs => [("containerStatuses", PList cs)]
          | None => []
          end)) ].

Definition sample_deployment : pyval :=
  PDict [("status", PDict [("readyReplicas", PInt 1); ("unavailableReplicas", PInt 2)])].

Definition sample_pods : pyval :=
  PDict
    [ ("items", PList
         [ pod "web-a" "Running" (Some [container true 1]);
           pod "web-b" "Running" (Some [container true 0; container false 2]);
           pod "web-c" "Pending" None ]) ].

Definition sample_loads (text : string) : option pyval :=
  if String.eqb text "<deployment web>" then Some sample_deployment
  else if String.eqb text "<pods app=web>" then Some sample_pods
  else None.

Definition sample_dump (doc : pyval) : string :=
  match doc with
  | PDict (_ :: ("kind", PStr kind) :: _) => "<yaml " ++ kind ++ ">"
  | _ => "<yaml>"
  end.

Definition status_world : World :=
  mkWorld false
    (fun _ c =>
       if String.prefix "kubectl get deployment" c then completed 0 "<deployment web>"
       else if String.prefix "kubectl get pods" c then completed 0 "<pods app=web>"
       else completed 1 "")
    (fun _ => false) (fun _ _ => true) (fun _ => None).

(** The deployment query answers, the pod query prints something that is
    not JSON. *)
Definition garbled_world : World :=
  mkWorld false
    (fun _ c =>
       if String.prefix "kubectl get deployment" c then completed 0 "<deployment web>"
       else completed 0 "Unable to connect to the server")
    (fun _ => false) (fun _ _ => true) (fun _ => None).

(** [helm] is at hand, the cluster is not. *)
Definition helm_only_world : World :=
  mkWorld false
    (fun _ c => if String.prefix "kubectl" c then completed 1 "" else completed 0 "")
    (fun _ => false) (fun _ _ => true) (fun _ => None).

(** A Windows machine where [helm] is not on the search path but chocolatey
    has installed it. *)
Definition chocolatey_world : World :=
  mkWorld true (fun _ _ => completed 1 "")
    (fun path => String.eqb path "C:\ProgramData\chocolatey\bin\helm.exe")
    (fun _ _ => true) (fun _ => None).

Definition deploy_web (ports : list Z) : Command :=
  CmdDeploy "web" "nginx" "1.25" 3 "100m" "500m" "128Mi" "512Mi" ports None.

(** A process right after [__init__], and one whose receiver has both tools
    recorded as installed. *)
Definition web_proc : Proc :=
  mkProc (fresh_self None "default" "helm") [Exec "where helm"].

Definition keda_proc : Proc :=
  mkProc (mkSelf (Some "admin.conf") "default" true true "helm") [].

Definition pod_entry (name phase : string) (ready : bool) (restarts : Z) : pyval :=
  PDict
    [ ("name", PStr name);
      ("status", PStr phase);
      ("ready", PBool ready);
      ("restarts", PInt restarts) ].

(** What [status web] reports in [status_world]. *)
Definition web_status : pyval :=
  PDict
    [ ("name", PStr "web");
      ("ready_replicas", PInt 1);
      ("available_replicas", PInt 0);
      ("unavailable_replicas", PInt 2);
      ("conditions", PList []);
      ("pods", PList
         [ pod_entry "web-a" "Running" true 1;
           pod_entry "web-b" "Running" false 2;
           pod_entry "web-c" "Pending" true 0 ]) ].

Definition web_queries : list Event :=
  [ Exec "kubectl get deployment web -n default -o json";
    Exec "kubectl get pods -n default -l app=web -o json" ].

(** A cluster in which KEDA runs; every command completes. *)
Definition keda_world : World :=
  mkWorld false
    (fun _ c =>
       if String.prefix "kubectl get pods -n keda" c
       then completed 0 "keda-operator-7d9c5 1/1 Running 0 5m"
       else if String.prefix "kubectl get deployments -n keda" c
       then completed 0 "keda-operator 1/1 1 1 5m"
       else if String.prefix "kubectl get crd" c
       then completed 0 "scaledobjects.keda.sh triggerauthentications.keda.sh"
       else completed 0 "")
    (fun _ => false) (fun _ _ => true) (fun _ => None).

(** A pod whose first container is up, whose second is not, and whose third
    has not reported readiness at all. *)
Definition half_started_pod : pyval :=
  pod "web-d" "Running"
    (Some [ container true 0;
            container false 4;
            PDict [("restartCount", PInt 1)] ]).

(** A pod with a container status that carries no restart count. *)
Definition uncounted_pod : pyval :=
  pod "web-e" "Running" (Some [ container true 0; PDict [("ready", PBool true)] ]).

(** A second decoder: a deployment without status, a pod list with an item
    that has no metadata, and a scaling policy. *)
Definition sample_policy : pyval :=
  PDict [("min_replicas", PInt 2); ("triggers", PList [PDict [("type", PStr "cpu")]])].

Definition other_loads (text : string) : option pyval :=
  if String.eqb text "<deployment web>" then Some sample_deployment
  else if String.eqb text "<deployment without status>"
  then Some (PDict [("kind", PStr "Deployment")])
  else if String.eqb text "<pods, one without metadata>"
  then Some (PDict [("items", PList [ pod "web-a" "Running" (Some [container true 1]);
                                      PDict [("status", PDict [("phase", PStr "Pending")])] ])])
  else if String.eqb text "<policy>" then Some sample_policy
  else None.

Definition no_status_world : World :=
  mkWorld false (fun _ _ => completed 0 "<deployment without status>")
    (fun _ => false) (fun _ _ => true) (fun _ => None).

Definition broken_pod_world : World :=
  mkWorld false
    (fun _ c =>
       if String.prefix "kubectl get deployment" c then completed 0 "<deployment web>"
       else completed 0 "<pods, one without metadata>")
    (fun _ => false) (fun _ _ => true) (fun _ => None).

(** Everything succeeds and [policy.json] holds a scaling policy. *)
Definition policy_world : World :=
  mkWorld false (fun _ _ => completed 0 "") (fun _ => false) (fun _ _ => true)
    (fun path => if String.eqb path "policy.json" then Some "<policy>" else None).

Definition deploy_web_with (ports : list Z) (keda_path : option string) : Command :=
  CmdDeploy "web" "nginx" "1.25" 3 "100m" "500m" "128Mi" "512Mi" ports keda_path.

(* ------------------------------------------------------------------------ *)
(** ** Properties of the building blocks *)

(** *** Strings *)

Lemma append_cancel_l (a b c : string) : (a ++ b = a ++ c)%string -> b = c.
Proof.
  induction a as [|ch a IH]; simpl; intros H; [exact H|].
  injection H as H. auto.
Qed.

Lemma append_assoc (a b c : string) : ((a ++ b) ++ c = a ++ (b ++ c))%string.
Proof. induction a as [|ch a IH]; simpl; congruence. Qed.

Lemma manifest_files_distinct (name : string) :
  deployment_file name <> service_file name /\
  deployment_file name <> scaled_object_file name /\
  service_file name <> scaled_object_file name.
Proof.
  unfold deployment_file, service_file, scaled_object_file.
  repeat split; intros H; apply append_cancel_l in H; discriminate.
Qed.

(** *** Case analysis on the next test of a computation *)

Ltac split_match :=
  match goal with
  | |- context [negb ?b] => destruct b eqn:?
  | |- context [match ?x with _ => _ end] =>
      match type of x with
      | bool => destruct x eqn:?
      | option _ => destruct x eqn:?
      | list _ => destruct x eqn:?
      | pyval => destruct x eqn:?
      end
  end.

(** *** Carrying out a plan *)

Lemma run_plan_prefix (w : World) (plan : list Event) :
  forall h, prefix_of (fst (run_plan w h plan)) plan.
Proof.
  induction plan as [|e plan IH]; intros h; simpl.
  - exists []. reflexivity.
  - destruct e as [c|path content].
    + destruct (command_ok w h c).
      * specialize (IH (h ++ [Exec c])%list).
        destruct (run_plan w (h ++ [Exec c]) plan) as [evs ok]; simpl in *.
        destruct IH as [rest ->]. exists rest. reflexivity.
      * exists plan. reflexivity.
    + destruct (open_write w h path).
      * specialize (IH (h ++ [Write path content])%list).
        destruct (run_plan w (h ++ [Write path content]) plan) as [evs ok]; simpl in *.
        destruct IH as [rest ->]. exists rest. reflexivity.
      * exists (Write path content :: plan). reflexivity.
Qed.

Lemma run_plan_complete (w : World) (plan : list Event) :
  forall h, snd (run_plan w h plan) = true -> fst (run_plan w h plan) = plan.
Proof.
  induction plan as [|e plan IH]; intros h; simpl; [reflexivity|].
  destruct e as [c|path content].
  - destruct (command_ok w h c); [|discriminate].
    specialize (IH (h ++ [Exec c])%list).
    destruct (run_plan w (h ++ [Exec c]) plan) as [evs ok]; simpl in *.
    intros Hok. rewrite (IH Hok). reflexivity.
  - destruct (open_write w h path); [|discriminate].
    specialize (IH (h ++ [Write path content])%list).
    destruct (run_plan w (h ++ [Write path content]) plan) as [evs ok]; simpl in *.
    intros Hok. rewrite (IH Hok). reflexivity.
Qed.

(** A refused command is the last effect of the run, and the run fails. *)
Lemma run_plan_abort (w : World) (plan : list Event) :
  forall h a c rest,
    fst (run_plan w h plan) = (a ++ Exec c :: rest)%list ->
    command_ok w (h ++ a)%list c = false ->
    rest = [] /\ snd (run_plan w h plan) = false.
Proof.
  induction plan as [|e plan IH]; intros h a c rest; simpl.
  - destruct a; discriminate.
  - destruct e as [c0|path content].
    + destruct (command_ok w h c0) eqn:Hc0.
      * specialize (IH (h ++ [Exec c0])%list).
        destruct (run_plan w (h ++ [Exec c0]) plan) as [evs ok]; simpl in *.
        destruct a as [|e a]; simpl; intros Heq Hfail.
        -- injection Heq as -> _. rewrite app_nil_r in Hfail. congruence.
        -- injection Heq as <- Heq.
           apply (IH a c rest Heq). rewrite <- app_assoc. exact Hfail.
      * simpl. destruct a as [|e a]; simpl; intros Heq Hfail.
        -- injection Heq as _ <-. auto.
        -- injection Heq as _ Heq. destruct a; discriminate.
    + destruct (open_write w h path) eqn:Hopen.
      * specialize (IH (h ++ [Write path content])%list).
        destruct (run_plan w (h ++ [Write path content]) plan) as [evs ok]; simpl in *.
        destruct a as [|e a]; simpl; intros Heq Hfail; [discriminate|].
        injection Heq as <- Heq.
        apply (IH a c rest Heq). rewrite <- app_assoc. exact Hfail.
      * simpl. destruct a; discriminate.
Qed.



(** A list of commands each of which succeeds at its turn is issued whole. *)
Lemma run_plan_commands_accept (w : World) (commands : list string) (h : list Event) :
  (forall pre c post,
      commands = (pre ++ c :: post)%list ->
      command_ok w (h ++ map Exec pre)%list c = true) ->
  run_plan w h (map Exec commands) = (map Exec commands, true).
Proof.
  revert h. induction commands as [|c commands IH]; intros h Hacc; simpl; [reflexivity|].
  pose proof (Hacc [] c commands eq_refl) as Hc. simpl in Hc. rewrite app_nil_r in Hc.
  rewrite Hc, IH; [reflexivity|].
  intros pre c' post ->. rewrite <- app_assoc. apply (Hacc (c :: pre) c' post). reflexivity.
Qed.

Lemma prefix_of_In {A} (l1 l2 : list A) (x : A) :
  prefix_of l1 l2 -> In x l1 -> In x l2.
Proof. intros [rest ->] H. apply in_or_app. auto. Qed.

Lemma executed_app (l1 l2 : list Event) :
  executed (l1 ++ l2) = (executed l1 ++ executed l2)%list.
Proof.
  induction l1 as [|[c|path content] l1 IH]; simpl; congruence.
Qed.

Lemma written_app (l1 l2 : list Event) :
  written (l1 ++ l2) = (written l1 ++ written l2)%list.
Proof.
  induction l1 as [|[c|path content] l1 IH]; simpl; congruence.
Qed.

Lemma written_In (evs : list Event) (path : string) :
  In path (written evs) <-> exists content, In (Write path content) evs.
Proof.
  induction evs as [|[c|path0 content0] evs IH]; simpl.
  - split; [tauto|]. intros [? []].
  - rewrite IH. split; intros [content H]; exists content; [auto|].
    destruct H as [H|H]; [discriminate|exact H].
  - rewrite IH. split.
    + intros [->|[content H]]; eauto.
    + intros [content [H|H]]; [injection H as -> _; auto|eauto].
Qed.

Lemma prefix_of_executed (l1 l2 : list Event) :
  prefix_of l1 l2 -> prefix_of (executed l1) (executed l2).
Proof. intros [rest ->]. exists (executed rest). apply executed_app. Qed.

Lemma effects_of_app (p : Proc) (s : KubernetesAutomation) (evs : list Event) :
  effects_of p (mkProc s (trace p ++ evs)) = evs.
Proof.
  unfold effects_of. cbn [trace].
  induction (trace p) as [|e tr IH]; simpl; auto.
Qed.

(** *** The start of every run *)

Lemma init_run (kubeconfig : option string) (namespace : string) (w : World) (p : Proc) :
  exists helm,
    init kubeconfig namespace w p
    = (Ok tt, mkProc (fresh_self kubeconfig namespace helm) (trace p ++ [where_helm w])).
Proof.
  unfold init, find_helm_path, try_except_Exception, run_command, modify_self, log,
    where_helm, fresh_self, set_helm_path.
  cbn [bind ret M_Monad fst snd self trace].
  repeat (split_match; cbn [is_Exception fst snd self trace andb negb]);
    eexists; reflexivity.
Qed.

(** *** The pure part of the status query *)

Lemma roe_ok {A} (a : A) : raises_only_exceptions (Ok a).
Proof. intros e H. discriminate. Qed.

Lemma roe_bind {A B} (m : result A) (k : A -> result B) :
  raises_only_exceptions m ->
  (forall a, raises_only_exceptions (k a)) ->
  raises_only_exceptions (bind m k).
Proof.
  intros Hm Hk e. destruct m as [a|e']; simpl.
  - apply Hk.
  - intros H. injection H as <-. apply Hm. reflexivity.
Qed.

Lemma roe_subscript (x : pyval) (k : string) : raises_only_exceptions (subscript x k).
Proof.
  intros e. destruct x; simpl; try (intros H; injection H as <-; reflexivity).
  destruct (assoc k kvs); intros H; [discriminate|injection H as <-; reflexivity].
Qed.

Lemma roe_py_get (x : pyval) (k : string) (d : pyval) :
  raises_only_exceptions (py_get x k d).
Proof.
  intros e. destruct x; simpl; try (intros H; injection H as <-; reflexivity).
  destruct (assoc k kvs); discriminate.
Qed.

Lemma roe_py_iter (x : pyval) : raises_only_exceptions (py_iter x).
Proof.
  intros e. destruct x; simpl; try discriminate;
    intros H; injection H as <-; reflexivity.
Qed.

Lemma roe_py_add (acc : Z) (v : pyval) : raises_only_exceptions (py_add acc v).
Proof.
  intros e. destruct v; simpl; try discriminate;
    intros H; injection H as <-; reflexivity.
Qed.

Lemma roe_py_all (f : pyval -> result pyval) (l : list pyval) :
  (forall c, raises_only_exceptions (f c)) -> raises_only_exceptions (py_all f l).
Proof.
  intros Hf. induction l as [|c l IH]; simpl.
  - apply roe_ok.
  - apply (roe_bind (f c)); [apply Hf|].
    intros v. destruct (truthy v); [exact IH|apply roe_ok].
Qed.

Lemma roe_py_sum (f : pyval -> result pyval) (l : list pyval) :
  (forall c, raises_only_exceptions (f c)) ->
  forall acc, raises_only_exceptions (py_sum f acc l).
Proof.
  intros Hf. induction l as [|c l IH]; intros acc; simpl.
  - apply roe_ok.
  - apply (roe_bind (f c)); [apply Hf|].
    intros v. apply (roe_bind (py_add acc v)); [apply roe_py_add|].
    intros acc'. apply IH.
Qed.

Lemma roe_mapM {A B} (f : A -> result B) (l : list A) :
  (forall x, raises_only_exceptions (f x)) -> raises_only_exceptions (mapM f l).
Proof.
  intros Hf. induction l as [|x l IH]; simpl.
  - apply roe_ok.
  - apply (roe_bind (f x)); [apply Hf|].
    intros y. apply (roe_bind (mapM f l)); [exact IH|].
    intros ys. apply roe_ok.
Qed.

Create HintDb roe.

#[local] Hint Resolve roe_ok roe_subscript roe_py_get roe_py_iter roe_py_add : roe.

Ltac roe :=
  repeat first
    [ apply roe_bind; [|intros ?]
    | apply roe_py_all; intros ?
    | apply roe_py_sum; intros ?
    | apply roe_mapM; intros ?
    | solve [auto with roe] ].

Lemma roe_pod_status (pod : pyval) : raises_only_exceptions (pod_status pod).
Proof. unfold pod_status. roe. Qed.

Lemma roe_pod_statuses (pods : pyval) : raises_only_exceptions (pod_statuses pods).
Proof. unfold pod_statuses. roe. Qed.

Lemma roe_status_header (name : string) (deployment : pyval) :
  raises_only_exceptions (status_header name deployment).
Proof. unfold status_header, deployment_status_field. roe. Qed.

Lemma py_all_forallb (f : pyval -> result pyval) (l : list pyval) (b : bool) :
  py_all f l = Ok b ->
  b = forallb (fun c => match f c with Ok v => truthy v | Raise _ => false end) l.
Proof.
  revert b. induction l as [|c l IH]; simpl; intros b H.
  - congruence.
  - destruct (f c) as [v|e]; [|discriminate].
    destruct (truthy v); simpl; [auto|congruence].
Qed.

Lemma py_sum_total (f : pyval -> result pyval) (l : list pyval) :
  forall acc z,
    py_sum f acc l = Ok z ->
    z = acc + total (map (fun c => match f c with
                                   | Ok (PInt n) => n
                                   | Ok (PBool b) => Z.b2z b
                                   | _ => 0
                                   end) l).
Proof.
  induction l as [|c l IH]; simpl; intros acc z H.
  - injection H as <-. lia.
  - destruct (f c) as [v|e]; [|discriminate].
    destruct v; simpl in H; try discriminate;
      apply IH in H; unfold total in *; simpl; lia.
Qed.

(** One entry of the pod list: both folds range over the container statuses
    of that pod alone. *)
Lemma pod_status_entry (pod entry : pyval) :
  pod_status pod = Ok entry ->
  exists pod_name phase cs,
    container_statuses pod = Ok cs /\
    entry = PDict [ ("name", pod_name);
                    ("status", phase);
                    ("ready", PBool (forallb reports_ready cs));
                    ("restarts", PInt (total (map restart_count cs))) ].
Proof.
  unfold pod_status, container_statuses. cbn [bind ret result_Monad].
  destruct (subscript pod "metadata") as [metadata|]; [|discriminate].
  destruct (subscript metadata "name") as [pod_name|]; [|discriminate].
  destruct (subscript pod "status") as [st|]; [|discriminate].
  destruct (subscript st "phase") as [phase|]; [|discriminate].
  destruct (py_get st "containerStatuses" (PList [])) as [statuses|]; [|discriminate].
  destruct (py_iter statuses) as [cs|]; [|discriminate].
  destruct (py_all _ cs) as [ready|] eqn:Hall; [|discriminate].
  destruct (py_sum _ 0 cs) as [restarts|] eqn:Hsum; [|discriminate].
  intros H. injection H as <-.
  apply py_all_forallb in Hall. apply py_sum_total in Hsum.
  exists pod_name, phase, cs. split; [reflexivity|].
  rewrite Hall, Hsum. reflexivity.
Qed.

Lemma mapM_Forall2 {A B} (f : A -> result B) (l : list A) :
  forall l', mapM f l = Ok l' -> Forall2 (fun x y => f x = Ok y) l l'.
Proof.
  induction l as [|x l IH]; simpl; intros l' H.
  - injection H as <-. constructor.
  - destruct (f x) as [y|] eqn:Hx; [|discriminate].
    destruct (mapM f l) as [ys|]; [|discriminate].
    injection H as <-. constructor; auto.
Qed.

Lemma pod_statuses_entries (pods : pyval) (entries : list pyval) :
  pod_statuses pods = Ok entries ->
  exists items,
    pod_items pods = Ok items /\
    Forall2 (fun pod entry => pod_status pod = Ok entry) items entries.
Proof.
  unfold pod_statuses, pod_items. cbn [bind ret result_Monad].
  destruct (subscript pods "items") as [items|]; [|discriminate].
  destruct (py_iter items) as [l|]; [|discriminate].
  intros H. exists l. split; [reflexivity|]. apply mapM_Forall2. exact H.
Qed.

Lemma status_header_keys (name : string) (deployment : pyval)
  (status : list (string * pyval)) (entries : pyval) :
  status_header name deployment = Ok status ->
  subscript (PDict (assoc_set "pods" entries status)) "pods" = Ok entries.
Proof.
  unfold status_header. cbn [bind ret result_Monad].
  repeat match goal with
         | |- context [match deployment_status_field ?d ?k ?v with _ => _ end] =>
             destruct (deployment_status_field d k v); [|discriminate]
         end.
  intros H. injection H as <-. reflexivity.
Qed.

(** *** Commands, one at a time *)

Lemma run_command_cases (c : string) (check : bool) (w : World) (p : Proc) :
  (exists r, run_command c check w p = (Ok r, log (Exec (shell_command w c)) p)) \/
  (exists e, is_Exception e = true /\
             run_command c check w p = (Raise e, log (Exec (shell_command w c)) p)).
Proof.
  unfold run_command. cbv zeta.
  destruct (subprocess_run w (trace p) _) as [r|].
  - destruct (check && negb (returncode r =? 0)).
    + right. exists CalledProcessError. auto.
    + left. exists r. reflexivity.
  - right. exists OSError. auto.
Qed.

Lemma run_command_refused (c : string) (w : World) (p : Proc) :
  command_ok w (trace p) (shell_command w c) = false ->
  exists e, is_Exception e = true /\
            run_command c true w p = (Raise e, log (Exec (shell_command w c)) p).
Proof.
  unfold run_command, command_ok. cbv zeta.
  destruct (subprocess_run w (trace p) _) as [r|].
  - intros ->. exists CalledProcessError. auto.
  - intros _. exists OSError. auto.
Qed.

Ltac run_step :=
  match goal with
  | |- context [run_command ?c ?check ?w ?p] =>
      let e := fresh "e" in
      let He := fresh "He" in
      destruct (run_command_cases c check w p) as [[? ->]|(e & He & ->)];
      cbn [bind ret M_Monad fst snd]; [|try rewrite He]
  end.

Lemma written_log_exec (c : string) (p : Proc) :
  written (trace (log (Exec c) p)) = written (trace p).
Proof. unfold log. cbn [trace]. rewrite written_app. simpl. apply app_nil_r. Qed.

Lemma with_kubeconfig_kubectl (s : KubernetesAutomation) (c : string) :
  exists c', with_kubeconfig s ("kubectl " ++ c) = "kubectl " ++ c'.
Proof.
  unfold with_kubeconfig. destruct (kubeconfig s) as [k|]; [|eauto].
  destruct (str_truthy (Some k)); [|eauto].
  eexists. simpl. reflexivity.
Qed.

Lemma with_kubeconfig_quoted_kubectl (s : KubernetesAutomation) (c : string) :
  exists c', with_kubeconfig_quoted s ("kubectl " ++ c) = "kubectl " ++ c'.
Proof.
  unfold with_kubeconfig_quoted. destruct (kubeconfig s) as [k|]; [|eauto].
  destruct (str_truthy (Some k)); [|eauto].
  eexists. simpl. reflexivity.
Qed.

Lemma kubectl_down_plain (w : World) (s : KubernetesAutomation) (c : string) (h : list Event) :
  kubectl_down w ->
  command_ok w h (shell_command w (with_kubeconfig s ("kubectl " ++ c))) = false.
Proof.
  intros Hdown. destruct (with_kubeconfig_kubectl s c) as [c' ->]. apply Hdown.
Qed.

Lemma kubectl_down_quoted (w : World) (s : KubernetesAutomation) (c : string) (h : list Event) :
  kubectl_down w ->
  command_ok w h (shell_command w (with_kubeconfig_quoted s ("kubectl " ++ c))) = false.
Proof.
  intros Hdown. destruct (with_kubeconfig_quoted_kubectl s c) as [c' ->]. apply Hdown.
Qed.

(** *** [connect] and [install] *)

Lemma connect_to_cluster_run (w : World) (p : Proc) :
  connect_to_cluster w p
  = (Ok (command_ok w (trace p)
           (shell_command w (with_kubeconfig (self p) "kubectl cluster-info"))),
     log (Exec (shell_command w (with_kubeconfig (self p) "kubectl cluster-info"))) p).
Proof.
  unfold connect_to_cluster, try_except_Exception, run_command, get_self, command_ok.
  cbn [bind ret M_Monad fst snd andb].
  destruct (subprocess_run w (trace p) _) as [r|]; [|reflexivity].
  destruct (returncode r =? 0); reflexivity.
Qed.

(** The gate of [install_keda]. *)
Lemma install_keda_without_helm (w : World) (p : Proc) :
  helm_installed (self p) = false -> install_keda w p = (Ok false, p).
Proof.
  intros H. unfold install_keda, get_self. cbn [bind ret M_Monad]. rewrite H.
  reflexivity.
Qed.

Lemma find_helm_path_run (w : World) (p : Proc) :
  exists path,
    find_helm_path w p = (Ok path, log (Exec (shell_command w "where helm")) p).
Proof.
  unfold find_helm_path, try_except_Exception. cbn [bind ret M_Monad].
  run_step.
  - destruct (returncode x =? 0); [eauto|].
    destruct (first_existing w possible_paths); eauto.
  - eauto.
Qed.

(** [install_helm] always answers, and writes no file. *)
Lemma install_helm_run (w : World) (p : Proc) :
  exists ok p',
    install_helm w p = (Ok ok, p') /\ written (trace p') = written (trace p).
Proof.
  unfold install_helm, try_except_Exception, try_except_all, get_self, modify_self.
  cbn [bind ret M_Monad].
  run_step; [|eexists; eexists; split; [reflexivity|apply written_log_exec]].
  destruct (returncode x =? 0).
  { cbn [bind ret M_Monad].
    eexists; eexists; split; [reflexivity|]. cbn [trace]. apply written_log_exec. }
  run_step.
  - destruct (find_helm_path_run w (log (Exec (shell_command w "choco install kubernetes-helm -y"))
                                       (log (Exec (shell_command w (helm_path (self p) ++ " version"))) p)))
      as [path ->].
    cbn [bind ret M_Monad fst snd self trace log].
    run_step; eexists; eexists; (split; [reflexivity|]); cbn [trace log];
      rewrite !written_app; simpl; rewrite !app_nil_r; reflexivity.
  - run_step.
    + match goal with
      | |- context [find_helm_path ?w ?q] =>
          destruct (find_helm_path_run w q) as [path ->]
      end.
      cbn [bind ret M_Monad fst snd self trace log].
      run_step; eexists; eexists; (split; [reflexivity|]); cbn [trace log];
        rewrite !written_app; simpl; rewrite !app_nil_r; reflexivity.
    + eexists; eexists; (split; [reflexivity|]); cbn [trace log];
        rewrite !written_app; simpl; rewrite !app_nil_r; reflexivity.
Qed.

(** With the cluster out of reach [install_keda] answers [False]: either at
    the gate, or in one of the helm commands, or at the latest when it looks
    for the operator pod. *)
Lemma install_keda_down (w : World) (p : Proc) :
  kubectl_down w ->
  exists p', install_keda w p = (Ok false, p') /\ written (trace p') = written (trace p).
Proof.
  intros Hdown.
  unfold install_keda, try_except_Exception, get_self, modify_self.
  cbn [bind ret M_Monad].
  destruct (helm_installed (self p)); cbn [negb]; [|eauto].
  run_step; [|eexists; split; [reflexivity|apply written_log_exec]].
  run_step;
    [|eexists; split; [reflexivity|]; cbn [trace log];
      rewrite !written_app; simpl; rewrite !app_nil_r; reflexivity].
  run_step;
    [|eexists; split; [reflexivity|]; cbn [trace log];
      rewrite !written_app; simpl; rewrite !app_nil_r; reflexivity].
  match goal with
  | |- context [run_command ?c true ?w ?q] =>
      destruct (run_command_refused c w q) as (e' & He' & ->);
      [apply (kubectl_down_quoted w (self p) "get pods -n keda" _ Hdown)|]
  end.
  cbn [bind ret M_Monad fst snd]. rewrite He'.
  eexists; split; [reflexivity|]; cbn [trace log];
    rewrite !written_app; simpl; rewrite !app_nil_r; reflexivity.
Qed.

(* ------------------------------------------------------------------------ *)
(** ** Properties of the script, for any JSON decoder and YAML printer *)

Section Properties.

Variable json_loads : string -> option pyval.
Variable yaml_dump : pyval -> string.

(** *** Symbolic execution of [create_deployment] *)

(** [create_deployment] carries out its plan, and answers [True] exactly when
    the whole plan went through and the policy could be read. *)
Lemma create_deployment_run_plan
  (name image tag : string) (replicas : Z)
  (cpu_request cpu_limit memory_request memory_limit : string)
  (ports : list Z) (keda_config : pyval) (w : World) (p : Proc) :
  create_deployment yaml_dump name image tag replicas
    cpu_request cpu_limit memory_request memory_limit
    (Some ports) (Some keda_config) w p
  = let (evs, ok) :=
      run_plan w (trace p)
        (deployment_plan yaml_dump w (self p) name image tag replicas
           cpu_request cpu_limit memory_request memory_limit ports keda_config) in
    (Ok (ok && policy_ok (self p) keda_config), mkProc (self p) (trace p ++ evs)).
Proof.
  destruct p as [s tr].
  unfold create_deployment, deployment_plan, policy_ok, try_except_Exception,
    dump_to_file, run_command, apply_command, deployment_file, service_file,
    scaled_object_file, lift, get_self, log, py_get.
  cbn [bind ret M_Monad fst snd self trace].
  destruct ports as [|port ports];
    destruct (truthy keda_config && keda_installed s) eqn:Hpolicy;
    destruct keda_config;
    cbn [run_plan app orb andb negb]; unfold command_ok.
  all: repeat (split_match;
               cbn [run_plan app orb andb negb is_Exception fst snd self trace]).
  all: rewrite <- ?app_assoc; rewrite ?app_nil_r; reflexivity.
Qed.

Lemma create_deployment_defaults
  (name image tag : string) (replicas : Z)
  (cpu_request cpu_limit memory_request memory_limit : string)
  (ports : option (list Z)) (keda_config : option pyval) :
  create_deployment yaml_dump name image tag replicas
    cpu_request cpu_limit memory_request memory_limit ports keda_config
  = create_deployment yaml_dump name image tag replicas
      cpu_request cpu_limit memory_request memory_limit
      (Some (effective_ports ports)) (Some (effective_policy keda_config)).
Proof. destruct ports, keda_config; reflexivity. Qed.

(** The effects of [create_deployment] are a prefix of its plan. *)
Lemma create_deployment_effects
  (name image tag : string) (replicas : Z)
  (cpu_request cpu_limit memory_request memory_limit : string)
  (ports : option (list Z)) (keda_config : option pyval) (w : World) (p : Proc) :
  prefix_of
    (effects_of p
       (snd (create_deployment yaml_dump name image tag replicas
               cpu_request cpu_limit memory_request memory_limit ports keda_config w p)))
    (deployment_plan yaml_dump w (self p) name image tag replicas
       cpu_request cpu_limit memory_request memory_limit
       (effective_ports ports) (effective_policy keda_config)).
Proof.
  rewrite create_deployment_defaults, create_deployment_run_plan.
  pose proof (run_plan_prefix w
                (deployment_plan yaml_dump w (self p) name image tag replicas
                   cpu_request cpu_limit memory_request memory_limit
                   (effective_ports ports) (effective_policy keda_config))
                (trace p)) as Hprefix.
  destruct (run_plan w (trace p) _) as [evs ok].
  cbn [fst snd] in *. rewrite effects_of_app. exact Hprefix.
Qed.

(** The documents of a plan. *)
Lemma deployment_plan_writes
  (w : World) (s : KubernetesAutomation) (name image tag : string) (replicas : Z)
  (cpu_request cpu_limit memory_request memory_limit : string)
  (ports : list Z) (keda_config : pyval) (path content : string) :
  In (Write path content)
    (deployment_plan yaml_dump w s name image tag replicas
       cpu_request cpu_limit memory_request memory_limit ports keda_config) ->
  (path = deployment_file name /\
   content = yaml_dump (deployment_manifest (namespace s) name image tag replicas
                          cpu_request cpu_limit memory_request memory_limit ports))
  \/ (path = service_file name /\ ports <> [] /\
      content = yaml_dump (service_manifest (namespace s) name ports))
  \/ (path = scaled_object_file name /\ keda_installed s = true /\
      exists kvs,
        keda_config = PDict kvs /\ kvs <> [] /\
        content =
          yaml_dump
            (scaled_object_manifest (namespace s) name
               (match assoc "min_replicas" kvs with Some v => v | None => PInt 1 end)
               (match assoc "max_replicas" kvs with Some v => v | None => PInt 10 end)
               (match assoc "triggers" kvs with Some v => v | None => PList [] end))).
Proof.
  unfold deployment_plan. intros H.
  apply in_app_or in H. destruct H as [H|H].
  - destruct H as [H|[H|[]]]; [|discriminate].
    injection H as <- <-. left. auto.
  - apply in_app_or in H. destruct H as [H|H].
    + destruct ports as [|port ports]; [destruct H|].
      destruct H as [H|[H|[]]]; [|discriminate].
      injection H as <- <-. right. left. repeat split; discriminate.
    + destruct (truthy keda_config && keda_installed s) eqn:Hpolicy; [|destruct H].
      destruct keda_config as [| | | | |kvs]; try destruct H.
      * injection H as <- <-. right. right.
        apply andb_true_iff in Hpolicy. destruct Hpolicy as [Hkvs Hkeda].
        repeat split; [exact Hkeda|]. exists kvs.
        repeat split. intros ->. discriminate.
      * destruct H as [H|[]]. discriminate.
Qed.


(** *** A [deploy] run of the script *)

(** What a [deploy] run amounts to: either the policy file cannot be loaded,
    or the plan is carried out from the state [__init__] leaves. *)
Lemma main_deploy_run
  (kubeconfig : option string) (namespace name image tag : string) (replicas : Z)
  (cpu_request cpu_limit memory_request memory_limit : string)
  (ports : list Z) (keda_path : option string) (w : World) :
  let args := mkArgs kubeconfig namespace
                (CmdDeploy name image tag replicas
                   cpu_request cpu_limit memory_request memory_limit ports keda_path) in
  (keda_path <> None /\ run_script json_loads yaml_dump args w = (1, [where_helm w])) \/
  exists helm keda_config,
    (keda_path = None -> keda_config = PDict []) /\
    let s := fresh_self kubeconfig namespace helm in
    run_script json_loads yaml_dump args w
    = (if snd (run_plan w [where_helm w]
                 (deployment_plan yaml_dump w s name image tag replicas
                    cpu_request cpu_limit memory_request memory_limit ports keda_config))
          && policy_ok s keda_config
       then 0 else 1,
       where_helm w ::
         fst (run_plan w [where_helm w]
                (deployment_plan yaml_dump w s name image tag replicas
                   cpu_request cpu_limit memory_request memory_limit ports keda_config))).
Proof.
  cbv zeta. unfold run_script, main.
  cbn [bind ret M_Monad args_kubeconfig args_namespace args_command].
  destruct (init_run kubeconfig namespace w new_proc) as [helm ->].
  cbn [trace new_proc app].
  set (p1 := mkProc (fresh_self kubeconfig namespace helm) [where_helm w]).
  assert (Hrun : forall keda_config,
             (keda_path = None -> keda_config = PDict []) ->
             exists keda_config',
               (keda_path = None -> keda_config' = PDict []) /\
               (let (r, p0) :=
                  (let (r, p') :=
                     create_deployment yaml_dump name image tag replicas
                       cpu_request cpu_limit memory_request memory_limit
                       (Some ports) (Some keda_config) w p1 in
                   match r with
                   | Ok a => (if negb a then exit 1 else ret tt) w p'
                   | Raise e => (Raise e, p')
                   end) in
                (exit_code r, trace p0))
               = (if snd (run_plan w [where_helm w]
                            (deployment_plan yaml_dump w
                               (fresh_self kubeconfig namespace helm) name image tag replicas
                               cpu_request cpu_limit memory_request memory_limit
                               ports keda_config'))
                     && policy_ok (fresh_self kubeconfig namespace helm) keda_config'
                  then 0 else 1,
                  where_helm w ::
                    fst (run_plan w [where_helm w]
                           (deployment_plan yaml_dump w
                              (fresh_self kubeconfig namespace helm) name image tag replicas
                              cpu_request cpu_limit memory_request memory_limit
                              ports keda_config')))).
  { intros keda_config Hnone. exists keda_config. split; [exact Hnone|].
    rewrite create_deployment_run_plan. cbn [self trace p1].
    destruct (run_plan w [where_helm w] _) as [evs ok]. cbn [fst snd].
    destruct (ok && policy_ok _ keda_config); reflexivity. }
  destruct keda_path as [path|].
  - destruct (str_truthy (Some path)).
    + unfold try_except_Exception, read_text, loads.
      cbn [bind ret M_Monad].
      destruct (read_file w path) as [text|].
      * destruct (json_loads text) as [keda_config|].
        -- right. exists helm. apply (Hrun keda_config). discriminate.
        -- left. split; [discriminate|reflexivity].
      * left. split; [discriminate|reflexivity].
    + right. exists helm. apply (Hrun (PDict [])). reflexivity.
  - right. exists helm. apply (Hrun (PDict [])). reflexivity.
Qed.

(** In a fresh process the plan of a deploy depends neither on the policy
    nor on the helm path. *)
Lemma deployment_plan_fresh
  (w : World) (kcfg : option string) (ns helm name image tag : string) (replicas : Z)
  (cpu_request cpu_limit memory_request memory_limit : string)
  (ports : list Z) (keda_config : pyval) :
  deployment_plan yaml_dump w (fresh_self kcfg ns helm) name image tag replicas
    cpu_request cpu_limit memory_request memory_limit ports keda_config
  = deployment_plan yaml_dump w (fresh_self kcfg ns "") name image tag replicas
      cpu_request cpu_limit memory_request memory_limit ports (PDict []) /\
  policy_ok (fresh_self kcfg ns helm) keda_config = true.
Proof.
  unfold deployment_plan, policy_ok, apply_command, with_kubeconfig.
  cbn [fresh_self kubeconfig namespace keda_installed].
  rewrite !andb_false_r. split; reflexivity.
Qed.

(** A [deploy] run, exactly: it stops after the helm lookup when the policy
    file does not load, and otherwise carries out the plan of a fresh
    process and exits with status 0 when all of it went through. *)
Lemma main_deploy_run_exact
  (kcfg : option string) (ns name image tag : string) (replicas : Z)
  (cpu_request cpu_limit memory_request memory_limit : string)
  (ports : list Z) (keda_path : option string) (w : World) :
  run_script json_loads yaml_dump
    (mkArgs kcfg ns
       (CmdDeploy name image tag replicas
          cpu_request cpu_limit memory_request memory_limit ports keda_path)) w
  = if policy_loads json_loads w keda_path then
      (if snd (run_plan w [where_helm w]
                 (deployment_plan yaml_dump w (fresh_self kcfg ns "") name image tag
                    replicas cpu_request cpu_limit memory_request memory_limit
                    ports (PDict [])))
       then 0 else 1,
       where_helm w ::
         fst (run_plan w [where_helm w]
                (deployment_plan yaml_dump w (fresh_self kcfg ns "") name image tag
                   replicas cpu_request cpu_limit memory_request memory_limit
                   ports (PDict []))))
    else (1, [where_helm w]).
Proof.
  unfold run_script, main.
  cbn [bind ret M_Monad args_kubeconfig args_namespace args_command].
  destruct (init_run kcfg ns w new_proc) as [helm ->].
  cbn [trace new_proc app].
  set (p1 := mkProc (fresh_self kcfg ns helm) [where_helm w]).
  assert (Hrun : forall keda_config,
             (let (r, p0) :=
                (let (r, p') :=
                   create_deployment yaml_dump name image tag replicas
                     cpu_request cpu_limit memory_request memory_limit
                     (Some ports) (Some keda_config) w p1 in
                 match r with
                 | Ok a => (if negb a then exit 1 else ret tt) w p'
                 | Raise e => (Raise e, p')
                 end) in
              (exit_code r, trace p0))
             = (if snd (run_plan w [where_helm w]
                          (deployment_plan yaml_dump w (fresh_self kcfg ns "") name image
                             tag replicas cpu_request cpu_limit memory_request
                             memory_limit ports (PDict [])))
                then 0 else 1,
                where_helm w ::
                  fst (run_plan w [where_helm w]
                         (deployment_plan yaml_dump w (fresh_self kcfg ns "") name image
                            tag replicas cpu_request cpu_limit memory_request
                            memory_limit ports (PDict []))))).
  { intros keda_config. rewrite create_deployment_run_plan. cbn [self trace p1].
    destruct (deployment_plan_fresh w kcfg ns helm name image tag replicas
                cpu_request cpu_limit memory_request memory_limit ports keda_config)
      as [-> ->].
    destruct (run_plan w [where_helm w] _) as [evs ok]. cbn [fst snd].
    rewrite andb_true_r. destruct ok; reflexivity. }
  unfold policy_loads.
  destruct keda_path as [path|]; [|apply Hrun].
  destruct (str_truthy (Some path)); [|apply Hrun].
  unfold try_except_Exception, read_text, loads.
  cbn [bind ret M_Monad].
  destruct (read_file w path) as [text|]; [|reflexivity].
  destruct (json_loads text) as [keda_config|]; [apply Hrun|reflexivity].
Qed.

(** *** The status query, step by step *)

Lemma get_deployment_status_run (name : string) (w : World) (p : Proc) :
  get_deployment_status json_loads name w p =
  let p1 := log (Exec (deployment_query w (self p) name)) p in
  let p2 := log (Exec (pods_query w (self p) name)) p1 in
  match subprocess_run w (trace p) (deployment_query w (self p) name) with
  | Some r1 =>
      if returncode r1 =? 0 then
        match json_loads (stdout r1) with
        | Some deployment =>
            match status_header name deployment with
            | Ok status =>
                match subprocess_run w (trace p1) (pods_query w (self p) name) with
                | Some r2 =>
                    if returncode r2 =? 0 then
                      match json_loads (stdout r2) with
                      | Some pods =>
                          match pod_statuses pods with
                          | Ok entries =>
                              (Ok (Some (PDict (assoc_set "pods" (PList entries) status))), p2)
                          | Raise _ => (Ok None, p2)
                          end
                      | None => (Ok None, p2)
                      end
                    else (Ok None, p2)
                | None => (Ok None, p2)
                end
            | Raise _ => (Ok None, p1)
            end
        | None => (Ok None, p1)
        end
      else (Ok None, p1)
  | None => (Ok None, p1)
  end.
Proof.
  destruct p as [s tr]. cbv zeta.
  unfold get_deployment_status, try_except_Exception, run_command, loads, lift, raise,
    get_self, log, deployment_query, pods_query.
  cbn [bind ret M_Monad fst snd self trace andb].
  destruct (subprocess_run w tr _) as [r1|]; [|reflexivity].
  destruct (returncode r1 =? 0); cbn [negb is_Exception]; [|reflexivity].
  destruct (json_loads (stdout r1)) as [deployment|]; cbn [is_Exception]; [|reflexivity].
  pose proof (roe_status_header name deployment) as Hroe.
  unfold status_header in *. cbn [bind ret result_Monad] in *.
  do 4 (match goal with
        | |- context [match deployment_status_field ?d ?k ?v with _ => _ end] =>
            destruct (deployment_status_field d k v) as [?|e];
            [|cbn [is_Exception fst snd]; rewrite (Hroe e eq_refl); reflexivity]
        end).
  clear Hroe. cbn [is_Exception fst snd self trace].
  destruct (subprocess_run w _ _) as [r2|]; [|reflexivity].
  destruct (returncode r2 =? 0); cbn [negb is_Exception]; [|reflexivity].
  destruct (json_loads (stdout r2)) as [pods|]; cbn [is_Exception]; [|reflexivity].
  pose proof (roe_pod_statuses pods) as Hroe.
  destruct (pod_statuses pods) as [entries|e]; [reflexivity|].
  rewrite (Hroe e eq_refl). reflexivity.
Qed.

(** A status that is returned was assembled from a decoded answer to the pod
    query: one entry per item, in order. *)
Lemma get_deployment_status_pods
  (name : string) (w : World) (p p' : Proc) (status : pyval) :
  get_deployment_status json_loads name w p = (Ok (Some status), p') ->
  exists r2 pods items entries,
    subprocess_run w (trace p ++ [Exec (deployment_query w (self p) name)])
      (pods_query w (self p) name) = Some r2 /\
    json_loads (stdout r2) = Some pods /\
    pod_items pods = Ok items /\
    subscript status "pods" = Ok (PList entries) /\
    Forall2 (fun pod entry => pod_status pod = Ok entry) items entries.
Proof.
  rewrite get_deployment_status_run. cbv zeta. cbn [log trace].
  destruct (subprocess_run w (trace p) _) as [r1|]; [|discriminate].
  destruct (returncode r1 =? 0); [|discriminate].
  destruct (json_loads (stdout r1)) as [deployment|]; [|discriminate].
  destruct (status_header name deployment) as [hdr|] eqn:Hhdr; [|discriminate].
  destruct (subprocess_run w _ (pods_query w (self p) name)) as [r2|] eqn:Hr2;
    [|discriminate].
  destruct (returncode r2 =? 0); [|discriminate].
  destruct (json_loads (stdout r2)) as [pods|] eqn:Hpods; [|discriminate].
  destruct (pod_statuses pods) as [entries|] eqn:Hentries; [|discriminate].
  intros H. injection H as <- _.
  destruct (pod_statuses_entries pods entries Hentries) as (items & Hitems & Hall).
  exists r2, pods, items, entries. repeat split; auto.
  eapply status_header_keys; eauto.
Qed.

(* ------------------------------------------------------------------------ *)
(** ** The claims about [create_deployment] *)

Section Deploy.

Variables (name image tag : string) (replicas : Z).
Variables (cpu_request cpu_limit memory_request memory_limit : string).

Local Abbreviation deploy :=
  (create_deployment yaml_dump name image tag replicas
     cpu_request cpu_limit memory_request memory_limit).
Local Abbreviation plan w s :=
  (deployment_plan yaml_dump w s name image tag replicas
     cpu_request cpu_limit memory_request memory_limit).


(** C4.  With an empty list of ports, no file [create_deployment] writes is
    the service manifest, whatever the policy, the receiver and the
    environment. *)
Theorem no_service_without_ports
  (keda_config : option pyval) (w : World) (p : Proc) (path : string) :
  In path (written (effects_of p (snd (deploy (Some []) keda_config w p)))) ->
  path <> service_file name.
Proof.
  intros H. apply written_In in H. destruct H as [content H].
  apply (prefix_of_In _ _ _ (create_deployment_effects _ _ _ _ _ _ _ _ _ _ w p)) in H.
  apply deployment_plan_writes in H.
  destruct (manifest_files_distinct name) as (Hds & Hdo & Hso).
  destruct H as [[Hpath _]|[(_ & Hports & _)|(Hpath & _)]].
  - congruence.
  - destruct Hports. reflexivity.
  - congruence.
Qed.

(** C5.  With no policy (the argument left out, or the empty dict [main]
    passes when [--keda-config] is absent), no file [create_deployment]
    writes is the scaled-object manifest, whether or not [keda_installed] is
    set. *)
Theorem no_scaled_object_without_policy
  (ports : option (list Z)) (keda_config : option pyval) (w : World) (p : Proc)
  (path : string) :
  keda_config = None \/ keda_config = Some (PDict []) ->
  In path (written (effects_of p (snd (deploy ports keda_config w p)))) ->
  path <> scaled_object_file name.
Proof.
  intros Hpolicy H. apply written_In in H. destruct H as [content H].
  apply (prefix_of_In _ _ _ (create_deployment_effects _ _ _ _ _ _ _ _ _ _ w p)) in H.
  apply deployment_plan_writes in H.
  destruct (manifest_files_distinct name) as (Hds & Hdo & Hso).
  destruct H as [[Hpath _]|[(Hpath & _)|(_ & _ & kvs & Hkvs & Hne & _)]];
    try congruence.
  destruct Hpolicy as [->| ->]; injection Hkvs as <-; destruct Hne; reflexivity.
Qed.

(** C6.  Every scaled-object manifest written for a policy without
    [min_replicas] has [minReplicaCount] 1, and for a policy without
    [max_replicas] has [maxReplicaCount] 10; and such a manifest is written
    whenever the deploy succeeds with a non-empty policy and the controller
    installed. *)
Theorem scaled_object_default_bounds
  (ports : option (list Z)) (kvs : list (string * pyval)) (w : World) (p : Proc) :
  let run := deploy ports (Some (PDict kvs)) w p in
  (forall content,
      In (Write (scaled_object_file name) content) (effects_of p (snd run)) ->
      exists doc,
        content = yaml_dump doc /\
        (assoc "min_replicas" kvs = None ->
         lookup_path ["spec"; "minReplicaCount"] doc = Some (PInt 1)) /\
        (assoc "max_replicas" kvs = None ->
         lookup_path ["spec"; "maxReplicaCount"] doc = Some (PInt 10))) /\
  (kvs <> [] -> keda_installed (self p) = true -> fst run = Ok true ->
   exists content, In (Write (scaled_object_file name) content) (effects_of p (snd run))).
Proof.
  cbv zeta. split.
  - intros content H.
    apply (prefix_of_In _ _ _ (create_deployment_effects _ _ _ _ _ _ _ _ _ _ w p)) in H.
    apply deployment_plan_writes in H.
    destruct (manifest_files_distinct name) as (Hds & Hdo & Hso).
    destruct H as [[Hpath _]|[(Hpath & _)|(_ & _ & kvs' & Hkvs & _ & ->)]];
      try congruence.
    injection Hkvs as <-. eexists. split; [reflexivity|].
    split; intros ->; reflexivity.
  - intros Hne Hkeda.
    rewrite create_deployment_defaults, create_deployment_run_plan.
    set (steps := deployment_plan yaml_dump w (self p) name image tag replicas
                    cpu_request cpu_limit memory_request memory_limit
                    (effective_ports ports) (effective_policy (Some (PDict kvs)))).
    pose proof (run_plan_complete w steps (trace p)) as Hcomplete.
    destruct (run_plan w (trace p) steps) as [evs ok]. cbn [fst snd] in *.
    intros Hok. injection Hok as Hok. apply andb_true_iff in Hok.
    rewrite effects_of_app, (Hcomplete (proj1 Hok)).
    eexists. subst steps. unfold deployment_plan.
    apply in_or_app. right. apply in_or_app. right.
    cbn [effective_policy truthy].
    rewrite Hkeda. destruct kvs; [congruence|]. left. reflexivity.
Qed.

(** C7.  The bytes of a manifest depend on the deployment parameters, the
    policy and the namespace only: two runs of [create_deployment] on the same
    input, in any two environments and from any two receivers with the same
    namespace, write identical contents to every file both of them write. *)
Theorem manifests_deterministic
  (ports : option (list Z)) (keda_config : option pyval)
  (w1 w2 : World) (p1 p2 : Proc) (path content1 content2 : string) :
  namespace (self p1) = namespace (self p2) ->
  In (Write path content1) (effects_of p1 (snd (deploy ports keda_config w1 p1))) ->
  In (Write path content2) (effects_of p2 (snd (deploy ports keda_config w2 p2))) ->
  content1 = content2.
Proof.
  intros Hns H1 H2.
  apply (prefix_of_In _ _ _ (create_deployment_effects _ _ _ _ _ _ _ _ _ _ w1 p1)) in H1.
  apply (prefix_of_In _ _ _ (create_deployment_effects _ _ _ _ _ _ _ _ _ _ w2 p2)) in H2.
  apply deployment_plan_writes in H1. apply deployment_plan_writes in H2.
  destruct (manifest_files_distinct name) as (Hds & Hdo & Hso).
  rewrite <- Hns in H2.
  destruct H1 as [[Hp1 ->]|[(Hp1 & _ & ->)|(Hp1 & _ & kvs1 & Hk1 & _ & ->)]];
    destruct H2 as [[Hp2 ->]|[(Hp2 & _ & ->)|(Hp2 & _ & kvs2 & Hk2 & _ & ->)]];
    try congruence.
  rewrite Hk1 in Hk2. injection Hk2 as <-. reflexivity.
Qed.

End Deploy.

(* ------------------------------------------------------------------------ *)
(** ** The claims about [get_deployment_status] *)

(** C2, as the code has it.  In every status that is returned, the pod list
    has one entry per matched pod, in order, and the flags are per pod: the
    entry's [ready] is true exactly when every container status of that pod
    reports ready, and its [restarts] is the sum of the restart counts of
    that pod's container statuses. *)
Theorem status_flags_are_per_pod
  (name : string) (w : World) (p p' : Proc) (status : pyval) :
  get_deployment_status json_loads name w p = (Ok (Some status), p') ->
  exists r2 pods items entries,
    subprocess_run w (trace p ++ [Exec (deployment_query w (self p) name)])
      (pods_query w (self p) name) = Some r2 /\
    json_loads (stdout r2) = Some pods /\
    pod_items pods = Ok items /\
    subscript status "pods" = Ok (PList entries) /\
    Forall2
      (fun pod entry =>
         exists cs,
           container_statuses pod = Ok cs /\
           subscript entry "ready" = Ok (PBool (forallb reports_ready cs)) /\
           (forallb reports_ready cs = true <-> forall c, In c cs -> reports_ready c = true) /\
           subscript entry "restarts" = Ok (PInt (total (map restart_count cs))))
      items entries.
Proof.
  intros H.
  destruct (get_deployment_status_pods name w p p' status H)
    as (r2 & pods & items & entries & Hr2 & Hpods & Hitems & Hkey & Hall).
  exists r2, pods, items, entries. repeat split; auto.
  clear - Hall. induction Hall as [|pod entry items entries Hpod _ IH]; constructor; auto.
  destruct (pod_status_entry pod entry Hpod) as (pod_name & phase & cs & Hcs & ->).
  exists cs. repeat split; auto; apply forallb_forall.
Qed.

(** C8.  If the deployment query fails, or its answer is not JSON, or the pod
    query fails, or its answer is not JSON, then [get_deployment_status]
    returns [None]: it neither raises nor returns a partial record. *)
Theorem status_absent_on_failure (name : string) (w : World) (p : Proc) :
  command_ok w (trace p) (deployment_query w (self p) name) = false \/
  (exists r1,
      subprocess_run w (trace p) (deployment_query w (self p) name) = Some r1 /\
      json_loads (stdout r1) = None) \/
  command_ok w (trace p ++ [Exec (deployment_query w (self p) name)])%list
    (pods_query w (self p) name) = false \/
  (exists r2,
      subprocess_run w (trace p ++ [Exec (deployment_query w (self p) name)])%list
        (pods_query w (self p) name) = Some r2 /\
      json_loads (stdout r2) = None) ->
  fst (get_deployment_status json_loads name w p) = Ok None.
Proof.
  rewrite get_deployment_status_run. cbv zeta. cbn [log trace]. unfold command_ok.
  destruct (subprocess_run w (trace p) _) as [r1|]; [|reflexivity].
  destruct (returncode r1 =? 0); [|reflexivity].
  destruct (json_loads (stdout r1)) as [deployment|] eqn:Hd; [|reflexivity].
  destruct (status_header name deployment) as [hdr|]; [|reflexivity].
  destruct (subprocess_run w _ (pods_query w (self p) name)) as [r2|]; [|reflexivity].
  destruct (returncode r2 =? 0); [|reflexivity].
  destruct (json_loads (stdout r2)) as [pods|] eqn:Hp; [|reflexivity].
  intros [H|[(r & Hr & Hnone)|[H|(r & Hr & Hnone)]]]; try discriminate;
    injection Hr as <-; congruence.
Qed.

(** C9.  In every status that is returned, a matched pod whose list of
    container statuses is empty (or missing) has an entry, at the same
    position, with [ready] true and [restarts] 0. *)
Theorem status_of_pod_without_containers
  (name : string) (w : World) (p p' : Proc) (status : pyval) :
  get_deployment_status json_loads name w p = (Ok (Some status), p') ->
  exists r2 pods items entries,
    subprocess_run w (trace p ++ [Exec (deployment_query w (self p) name)])
      (pods_query w (self p) name) = Some r2 /\
    json_loads (stdout r2) = Some pods /\
    pod_items pods = Ok items /\
    subscript status "pods" = Ok (PList entries) /\
    forall i pod,
      nth_error items i = Some pod ->
      container_statuses pod = Ok [] ->
      exists entry,
        nth_error entries i = Some entry /\
        subscript entry "ready" = Ok (PBool true) /\
        subscript entry "restarts" = Ok (PInt 0).
Proof.
  intros H.
  destruct (get_deployment_status_pods name w p p' status H)
    as (r2 & pods & items & entries & Hr2 & Hpods & Hitems & Hkey & Hall).
  exists r2, pods, items, entries. repeat split; auto.
  clear - Hall. induction Hall as [|pod0 entry0 items entries Hpod _ IH];
    intros i pod Hnth Hempty.
  - destruct i; discriminate.
  - destruct i as [|i]; simpl in Hnth.
    + injection Hnth as ->.
      destruct (pod_status_entry pod entry0 Hpod) as (pod_name & phase & cs & Hcs & ->).
      rewrite Hempty in Hcs. injection Hcs as <-.
      eexists. split; [reflexivity|]. split; reflexivity.
    + simpl. eapply IH; eauto.
Qed.

(* ------------------------------------------------------------------------ *)
(** ** The claims about whole runs *)

(** C1, as the code has it.  When every [kubectl] command fails (the
    connectivity check among them), [connect], [status], [deploy] and every
    [install] that asks for KEDA exit with status 1.  No run writes a service
    or scaled-object manifest.  [connect], [install] and [status] write no
    file at all; [deploy] writes the workload manifest, and only it, exactly
    when its policy file can be read and parsed (or no path, or an empty
    one, is named) and the manifest can be opened: it writes that file before its first [kubectl] command. *)
Theorem unreachable_cluster_exit_and_files (args : Args) (w : World) :
  kubectl_down w ->
  match args_command args with
  | CmdInstall _ false => True
  | _ => fst (run_script json_loads yaml_dump args w) = 1
  end /\
  (forall path,
      In path (written (snd (run_script json_loads yaml_dump args w))) ->
      match args_command args with
      | CmdDeploy name _ _ _ _ _ _ _ _ _ => path = deployment_file name
      | _ => False
      end) /\
  written (snd (run_script json_loads yaml_dump args w))
  = match args_command args with
    | CmdDeploy name _ _ _ _ _ _ _ _ keda_path =>
        if policy_loads json_loads w keda_path
           && open_write w [where_helm w] (deployment_file name)
        then [deployment_file name]
        else []
    | _ => []
    end.
Proof.
  intros Hdown.
  assert (Hmain :
            match args_command args with
            | CmdInstall _ false => True
            | _ => fst (run_script json_loads yaml_dump args w) = 1
            end /\
            written (snd (run_script json_loads yaml_dump args w))
            = match args_command args with
              | CmdDeploy name _ _ _ _ _ _ _ _ keda_path =>
                  if policy_loads json_loads w keda_path
                     && open_write w [where_helm w] (deployment_file name)
                  then [deployment_file name]
                  else []
              | _ => []
              end).
  { destruct args as [kcfg ns command]. cbn [args_command].
    destruct command as [|helm keda|name image tag replicas cpu_request cpu_limit
                                    memory_request memory_limit ports keda_path|name].
    - (* connect *)
      unfold run_script, main.
      cbn [bind ret M_Monad args_kubeconfig args_namespace args_command].
      destruct (init_run kcfg ns w new_proc) as [helm ->].
      rewrite connect_to_cluster_run.
      change "kubectl cluster-info" with ("kubectl " ++ "cluster-info").
      rewrite (kubectl_down_plain w _ "cluster-info" _ Hdown).
      cbn. split; reflexivity.
    - (* install *)
      assert (Hrun : written (snd (run_script json_loads yaml_dump
                                     (mkArgs kcfg ns (CmdInstall helm keda)) w)) = []
                     /\ (keda = true ->
                         fst (run_script json_loads yaml_dump
                                (mkArgs kcfg ns (CmdInstall helm keda)) w) = 1)).
      { unfold run_script, main.
        cbn [bind ret M_Monad args_kubeconfig args_namespace args_command].
        destruct (init_run kcfg ns w new_proc) as [path ->].
        cbn [trace new_proc app].
        set (p1 := mkProc (fresh_self kcfg ns path) [where_helm w]).
        assert (Hkeda : forall p,
                   written (trace p) = [] ->
                   written (snd (let (r, p0) :=
                                   (if keda
                                    then ok <- install_keda ;;
                                         if negb ok then exit 1 else ret tt
                                    else ret tt) w p in (exit_code r, trace p0))) = []
                   /\ (keda = true ->
                       fst (let (r, p0) :=
                              (if keda
                               then ok <- install_keda ;;
                                    if negb ok then exit 1 else ret tt
                               else ret tt) w p in (exit_code r, trace p0)) = 1)).
        { intros p Hp. destruct keda.
          - cbn [bind ret M_Monad].
            destruct (install_keda_down w p Hdown) as (p' & -> & Hw).
            cbn. rewrite Hw. auto.
          - cbn. split; [exact Hp|discriminate]. }
        destruct helm.
        - cbn [bind ret M_Monad].
          destruct (install_helm_run w p1) as (ok & p' & -> & Hw).
          destruct ok; cbn [negb bind ret M_Monad].
          + apply Hkeda. rewrite Hw. reflexivity.
          + cbn. rewrite Hw. auto.
        - cbn [bind ret M_Monad]. apply Hkeda. reflexivity. }
      destruct Hrun as [Hw Hcode].
      split; [destruct keda; auto|exact Hw].
    - (* deploy *)
      rewrite main_deploy_run_exact.
      destruct (policy_loads json_loads w keda_path); cbn [andb fst snd];
        [|split; reflexivity].
      unfold deployment_plan. cbn [app run_plan].
      destruct (open_write w [where_helm w] (deployment_file name)).
      + unfold apply_command.
        change ("kubectl apply -f " ++ deployment_file name)
          with ("kubectl " ++ ("apply -f " ++ deployment_file name)).
        rewrite (kubectl_down_plain w _ _ _ Hdown).
        cbn. split; reflexivity.
      + cbn. split; reflexivity.
    - (* status *)
      unfold run_script, main.
      cbn [bind ret M_Monad args_kubeconfig args_namespace args_command].
      destruct (init_run kcfg ns w new_proc) as [helm ->].
      rewrite get_deployment_status_run. cbv zeta.
      pose proof (kubectl_down_plain w (fresh_self kcfg ns helm)
                    ("get deployment " ++ name ++ " -n " ++ ns ++ " -o json")
                    [where_helm w] Hdown) as Hq.
      unfold command_ok in Hq. unfold deployment_query. cbn [self trace new_proc app] in *.
      change (namespace (fresh_self kcfg ns helm)) with ns.
      change ("kubectl get deployment " ++ name ++ " -n " ++ ns ++ " -o json")
        with ("kubectl " ++ "get deployment " ++ name ++ " -n " ++ ns ++ " -o json").
      destruct (subprocess_run w [where_helm w] _) as [r1|].
      + rewrite Hq. cbn. split; reflexivity.
      + cbn. split; reflexivity. }
  destruct Hmain as [Hcode Hwritten].
  split; [exact Hcode|]. split; [|exact Hwritten].
  intros path. rewrite Hwritten.
  destruct (args_command args) as [|helm keda|name image tag replicas cpu_request
                                     cpu_limit memory_request memory_limit ports
                                     keda_path|name];
    try (intros []).
  destruct (policy_loads json_loads w keda_path
            && open_write w [where_helm w] (deployment_file name)).
  - intros [<-|[]]. reflexivity.
  - intros [].
Qed.

(** C10.  [install --keda] without [--helm] exits with status 1 in every
    environment, and issues no command beyond the helm lookup of
    [__init__]: [helm_installed] is false after construction, and
    [install_keda] answers [False] at its gate. *)
Theorem install_keda_alone_fails
  (kubeconfig : option string) (namespace : string) (w : World) :
  run_script json_loads yaml_dump (mkArgs kubeconfig namespace (CmdInstall false true)) w
  = (1, [where_helm w]).
Proof.
  unfold run_script, main.
  cbn [bind ret M_Monad args_kubeconfig args_namespace args_command].
  destruct (init_run kubeconfig namespace w new_proc) as [path ->].
  rewrite install_keda_without_helm; reflexivity.
Qed.

End Properties.

(* ------------------------------------------------------------------------ *)
(** ** The claims on the sample environments *)

Ltac found := vm_compute; repeat first [left; reflexivity | right].

(** C1, as stated, fails: with every command failing, [deploy web nginx]
    exits with status 1 but has written [web-deployment.yaml]; and with only
    the cluster out of reach, [install --helm] exits with status 0. *)
Lemma unreachable_cluster_leaves_manifest :
  connectivity_check_fails unreachable_world None /\
  connectivity_check_fails helm_only_world None /\
  ~ (fst (run_script sample_loads sample_dump
            (mkArgs None "default" (deploy_web [80])) unreachable_world) = 1 /\
     ~ In (deployment_file "web")
         (written (snd (run_script sample_loads sample_dump
                          (mkArgs None "default" (deploy_web [80])) unreachable_world)))) /\
  fst (run_script sample_loads sample_dump
         (mkArgs None "default" (CmdInstall true false)) helm_only_world) <> 1.
Proof.
  split; [intros h; reflexivity|].
  split; [intros h; reflexivity|].
  split.
  - intros [_ H]. apply H. found.
  - vm_compute. discriminate.
Qed.

Lemma unreachable_cluster_exit_and_files_witness :
  kubectl_down unreachable_world /\
  fst (run_script sample_loads sample_dump
         (mkArgs None "default" (deploy_web [80])) unreachable_world) = 1 /\
  written (snd (run_script sample_loads sample_dump
                  (mkArgs None "default" (deploy_web [80])) unreachable_world))
  = [deployment_file "web"] /\
  written (snd (run_script sample_loads sample_dump
                  (mkArgs None "default" (deploy_web_with [80] (Some "policy.json")))
                  unreachable_world))
  = [] /\
  kubectl_down helm_only_world /\
  fst (run_script sample_loads sample_dump
         (mkArgs None "default" (CmdInstall true false)) helm_only_world) = 0.
Proof.
  assert (Hdown : kubectl_down unreachable_world) by (intros h c; reflexivity).
  split; [exact Hdown|].
  pose proof (unreachable_cluster_exit_and_files sample_loads sample_dump
                (mkArgs None "default" (deploy_web [80])) unreachable_world Hdown)
    as (Hcode & _ & Hfile).
  pose proof (unreachable_cluster_exit_and_files sample_loads sample_dump
                (mkArgs None "default" (deploy_web_with [80] (Some "policy.json")))
                unreachable_world Hdown)
    as (_ & _ & Hnone).
  split; [exact Hcode|]. split; [exact Hfile|]. split; [exact Hnone|].
  split; [intros h c; reflexivity|reflexivity].
Defined.

(** C2, as stated, fails: in [status_world] pod [web-a] is reported ready
    although a container of [web-b] is not, and no entry carries the sum 3 of
    all restart counts. *)
Lemma status_flags_are_not_global :
  get_deployment_status sample_loads "web" status_world web_proc
  = (Ok (Some web_status), mkProc (self web_proc) (trace web_proc ++ web_queries)) /\
  ~ reports_global_flags sample_pods web_status /\
  forall entries entry,
    subscript web_status "pods" = Ok (PList entries) ->
    In entry entries ->
    subscript entry "restarts" <> Ok (PInt 3).
Proof.
  split; [reflexivity|]. split.
  - intros (items & entries & Hitems & Hentries & Hall).
    vm_compute in Hitems. injection Hitems as <-.
    vm_compute in Hentries. injection Hentries as <-.
    destruct (Hall (pod_entry "web-a" "Running" true 1)) as [Hready _].
    + left. reflexivity.
    + vm_compute in Hready. discriminate.
  - intros entries entry Hentries Hin.
    vm_compute in Hentries. injection Hentries as <-.
    destruct Hin as [<-|[<-|[<-|[]]]]; vm_compute; discriminate.
Qed.

Lemma status_flags_are_per_pod_witness :
  get_deployment_status sample_loads "web" status_world web_proc
  = (Ok (Some web_status), mkProc (self web_proc) (trace web_proc ++ web_queries)) /\
  exists items entries,
    pod_items sample_pods = Ok items /\
    subscript web_status "pods" = Ok (PList entries) /\
    Forall2
      (fun pod entry =>
         exists cs,
           container_statuses pod = Ok cs /\
           subscript entry "ready" = Ok (PBool (forallb reports_ready cs)) /\
           subscript entry "restarts" = Ok (PInt (total (map restart_count cs))))
      items entries.
Proof.
  assert (Hrun : get_deployment_status sample_loads "web" status_world web_proc
                 = (Ok (Some web_status),
                    mkProc (self web_proc) (trace web_proc ++ web_queries)))
    by reflexivity.
  split; [exact Hrun|].
  destruct (status_flags_are_per_pod sample_loads "web" status_world web_proc _ _ Hrun)
    as (r2 & pods & items & entries & Hr2 & Hpods & Hitems & Hentries & Hall).
  vm_compute in Hr2. injection Hr2 as <-.
  vm_compute in Hpods. injection Hpods as <-.
  exists items, entries. split; [exact Hitems|]. split; [exact Hentries|].
  clear - Hall. induction Hall as [|pod entry items entries Hpod _ IH]; constructor; auto.
  destruct Hpod as (cs & Hcs & Hready & _ & Hrestarts). exists cs. auto.
Defined.


(** C4 on a run without ports: the workload manifest is written, and it is
    not the service manifest. *)
Lemma no_service_without_ports_witness :
  In "web-deployment.yaml"
    (written (effects_of keda_proc
                (snd (create_deployment sample_dump "web" "nginx" "1.25" 3
                        "100m" "500m" "128Mi" "512Mi" (Some []) None
                        healthy_world keda_proc)))) /\
  "web-deployment.yaml" <> service_file "web".
Proof.
  assert (H : In "web-deployment.yaml"
                (written (effects_of keda_proc
                            (snd (create_deployment sample_dump "web" "nginx" "1.25" 3
                                    "100m" "500m" "128Mi" "512Mi" (Some []) None
                                    healthy_world keda_proc)))))
    by found.
  split; [exact H|].
  exact (no_service_without_ports sample_dump "web" "nginx" "1.25" 3
           "100m" "500m" "128Mi" "512Mi" None healthy_world keda_proc _ H).
Defined.

(** C5 on a run without policy, the controller recorded as installed. *)
Lemma no_scaled_object_without_policy_witness :
  In "web-service.yaml"
    (written (effects_of keda_proc
                (snd (create_deployment sample_dump "web" "nginx" "1.25" 3
                        "100m" "500m" "128Mi" "512Mi" (Some [8080]) None
                        healthy_world keda_proc)))) /\
  "web-service.yaml" <> scaled_object_file "web".
Proof.
  assert (H : In "web-service.yaml"
                (written (effects_of keda_proc
                            (snd (create_deployment sample_dump "web" "nginx" "1.25" 3
                                    "100m" "500m" "128Mi" "512Mi" (Some [8080]) None
                                    healthy_world keda_proc)))))
    by found.
  split; [exact H|].
  exact (no_scaled_object_without_policy sample_dump "web" "nginx" "1.25" 3
           "100m" "500m" "128Mi" "512Mi" (Some [8080]) None healthy_world keda_proc _
           (or_introl eq_refl) H).
Defined.

(** C6 on a run: a policy with triggers only yields bounds 1 and 10. *)
Lemma scaled_object_default_bounds_witness :
  exists content doc,
    In (Write "web-scaledobject.yaml" content)
      (effects_of keda_proc
         (snd (create_deployment sample_dump "web" "nginx" "1.25" 3
                 "100m" "500m" "128Mi" "512Mi" (Some [8080])
                 (Some (PDict [("triggers", PList [PDict [("type", PStr "cpu")]])]))
                 healthy_world keda_proc))) /\
    content = sample_dump doc /\
    lookup_path ["spec"; "minReplicaCount"] doc = Some (PInt 1) /\
    lookup_path ["spec"; "maxReplicaCount"] doc = Some (PInt 10).
Proof.
  destruct (scaled_object_default_bounds sample_dump "web" "nginx" "1.25" 3
              "100m" "500m" "128Mi" "512Mi" (Some [8080])
              [("triggers", PList [PDict [("type", PStr "cpu")]])]
              healthy_world keda_proc) as [Hbounds Hwritten].
  destruct Hwritten as [content Hin]; [discriminate|reflexivity|reflexivity|].
  destruct (Hbounds content Hin) as (doc & Hdoc & Hmin & Hmax).
  exists content, doc. repeat split; auto.
Defined.

(** C7 on two runs: one environment accepts everything, the other refuses the
    service; the receivers differ too.  Both write the same service manifest. *)
Lemma manifests_deterministic_witness :
  namespace (self web_proc) = namespace (self keda_proc) /\
  In (Write "web-service.yaml" "<yaml Service>")
    (effects_of web_proc
       (snd (create_deployment sample_dump "web" "nginx" "1.25" 3
               "100m" "500m" "128Mi" "512Mi" (Some [8080]) None
               service_refused_world web_proc))) /\
  In (Write "web-service.yaml" "<yaml Service>")
    (effects_of keda_proc
       (snd (create_deployment sample_dump "web" "nginx" "1.25" 3
               "100m" "500m" "128Mi" "512Mi" (Some [8080]) None
               healthy_world keda_proc))) /\
  "<yaml Service>" = "<yaml Service>".
Proof.
  assert (Hns : namespace (self web_proc) = namespace (self keda_proc)) by reflexivity.
  assert (H1 : In (Write "web-service.yaml" "<yaml Service>")
                 (effects_of web_proc
                    (snd (create_deployment sample_dump "web" "nginx" "1.25" 3
                            "100m" "500m" "128Mi" "512Mi" (Some [8080]) None
                            service_refused_world web_proc))))
    by found.
  assert (H2 : In (Write "web-service.yaml" "<yaml Service>")
                 (effects_of keda_proc
                    (snd (create_deployment sample_dump "web" "nginx" "1.25" 3
                            "100m" "500m" "128Mi" "512Mi" (Some [8080]) None
                            healthy_world keda_proc))))
    by found.
  split; [exact Hns|]. split; [exact H1|]. split; [exact H2|].
  exact (manifests_deterministic sample_dump "web" "nginx" "1.25" 3
           "100m" "500m" "128Mi" "512Mi" (Some [8080]) None
           service_refused_world healthy_world web_proc keda_proc
           "web-service.yaml" "<yaml Service>" "<yaml Service>" Hns H1 H2).
Defined.

(** C8 on a run: the pod query prints an error text instead of JSON. *)
Lemma status_absent_on_failure_witness :
  (exists r2,
      subprocess_run garbled_world
        (trace web_proc ++ [Exec (deployment_query garbled_world (self web_proc) "web")])
        (pods_query garbled_world (self web_proc) "web") = Some r2 /\
      sample_loads (stdout r2) = None) /\
  fst (get_deployment_status sample_loads "web" garbled_world web_proc) = Ok None.
Proof.
  assert (H : exists r2,
             subprocess_run garbled_world
               (trace web_proc ++ [Exec (deployment_query garbled_world (self web_proc) "web")])
               (pods_query garbled_world (self web_proc) "web") = Some r2 /\
             sample_loads (stdout r2) = None).
  { exists (mkCompleted 0 "Unable to connect to the server"). split; reflexivity. }
  split; [exact H|].
  apply (status_absent_on_failure sample_loads "web" garbled_world web_proc).
  right. right. right. exact H.
Defined.

(** C9 on a run: [web-c] is pending and has no container statuses yet. *)
Lemma status_of_pod_without_containers_witness :
  get_deployment_status sample_loads "web" status_world web_proc
  = (Ok (Some web_status), mkProc (self web_proc) (trace web_proc ++ web_queries)) /\
  container_statuses (pod "web-c" "Pending" None) = Ok [] /\
  exists entries entry,
    subscript web_status "pods" = Ok (PList entries) /\
    nth_error entries 2 = Some entry /\
    subscript entry "ready" = Ok (PBool true) /\
    subscript entry "restarts" = Ok (PInt 0).
Proof.
  assert (Hrun : get_deployment_status sample_loads "web" status_world web_proc
                 = (Ok (Some web_status),
                    mkProc (self web_proc) (trace web_proc ++ web_queries)))
    by reflexivity.
  split; [exact Hrun|]. split; [reflexivity|].
  destruct (status_of_pod_without_containers sample_loads "web" status_world web_proc _ _ Hrun)
    as (r2 & pods & items & entries & Hr2 & Hpods & Hitems & Hentries & Hempty).
  vm_compute in Hr2. injection Hr2 as <-.
  vm_compute in Hpods. injection Hpods as <-.
  vm_compute in Hitems. injection Hitems as <-.
  destruct (Hempty 2%nat (pod "web-c" "Pending" None) eq_refl eq_refl)
    as (entry & Hnth & Hready & Hrestarts).
  exists entries, entry. auto.
Defined.

(* ------------------------------------------------------------------------ *)
(** ** Further properties: the helm lookup and the two installers *)

Lemma first_existing_some (w : World) (paths : list string) (found : string) :
  first_existing w paths = Some found ->
  exists before c after,
    paths = (before ++ c :: after)%list /\
    (forall c', In c' before -> path_exists w c' = false) /\
    path_exists w c = true /\
    found = dquote ++ c ++ dquote.
Proof.
  induction paths as [|c paths IH]; simpl; [discriminate|].
  destruct (path_exists w c) eqn:Hc.
  - intros H. injection H as <-. exists [], c, paths. repeat split; auto.
    intros c' [].
  - intros H. destruct (IH H) as (before & c0 & after & -> & Hbefore & Hc0 & ->).
    exists (c :: before), c0, after. repeat split; auto.
    intros c' [<-|Hin]; auto.
Qed.

(** The first candidate that exists is the one answered. *)
Lemma first_existing_at (w : World) (before : list string) (c : string) (after : list string) :
  (forall c', In c' before -> path_exists w c' = false) ->
  path_exists w c = true ->
  first_existing w (before ++ c :: after) = Some (dquote ++ c ++ dquote).
Proof.
  intros Hbefore Hc. induction before as [|b before IH]; simpl.
  - rewrite Hc. reflexivity.
  - rewrite (Hbefore b (or_introl eq_refl)). apply IH.
    intros c' Hin. apply Hbefore. right. exact Hin.
Qed.

Lemma first_existing_none (w : World) (paths : list string) :
  first_existing w paths = None <-> forall c, In c paths -> path_exists w c = false.
Proof.
  induction paths as [|c paths IH]; simpl.
  - split; [intros _ c []|reflexivity].
  - destruct (path_exists w c) eqn:Hc.
    + split; [discriminate|]. intros H. rewrite (H c) in Hc; [discriminate|auto].
    + rewrite IH. split.
      * intros H c' [<-|Hin]; auto.
      * intros H c' Hin. apply H. auto.
Qed.

(** [find_helm_path] always answers, with exactly one command issued and the
    receiver untouched.  The answer is [helm] when [where helm] exits with
    status 0 or cannot be run; when [where helm] runs and exits with another
    status, the answer is the first candidate path that exists, between
    double quotes, and [helm] when none exists. *)
Theorem find_helm_path_result (w : World) (p : Proc) :
  exists path,
    find_helm_path w p = (Ok path, log (where_helm w) p) /\
    (command_ok w (trace p) (shell_command w "where helm") = true -> path = "helm") /\
    (subprocess_run w (trace p) (shell_command w "where helm") = None -> path = "helm") /\
    ((forall c, In c possible_paths -> path_exists w c = false) -> path = "helm") /\
    (forall r before c after,
        subprocess_run w (trace p) (shell_command w "where helm") = Some r ->
        returncode r <> 0 ->
        possible_paths = (before ++ c :: after)%list ->
        (forall c', In c' before -> path_exists w c' = false) ->
        path_exists w c = true ->
        path = dquote ++ c ++ dquote) /\
    (path = "helm" \/
     exists before c after,
       possible_paths = (before ++ c :: after)%list /\
       (forall c', In c' before -> path_exists w c' = false) /\
       path_exists w c = true /\
       path = dquote ++ c ++ dquote).
Proof.
  unfold find_helm_path, try_except_Exception, run_command, where_helm, command_ok.
  cbn [bind ret M_Monad andb].
  destruct (subprocess_run w (trace p) _) as [r|].
  - destruct (returncode r =? 0) eqn:Hcode.
    + exists "helm". split; [reflexivity|]. do 3 (split; [auto|]). split; [|auto].
      intros r' before c after Hr' Hnz. injection Hr' as <-.
      apply Z.eqb_eq in Hcode. contradiction.
    + destruct (first_existing w possible_paths) as [found|] eqn:Hfirst.
      * exists found. split; [reflexivity|].
        split; [discriminate|]. split; [discriminate|]. split; [|split].
        -- intros Hnone. apply first_existing_none in Hnone. congruence.
        -- intros r' before c after _ _ Hsplit Hbefore Hc.
           rewrite Hsplit, (first_existing_at w before c after Hbefore Hc) in Hfirst.
           injection Hfirst as <-. reflexivity.
        -- right. apply first_existing_some. exact Hfirst.
      * exists "helm". split; [reflexivity|]. do 3 (split; [auto|]). split; [|auto].
        intros r' before c after _ _ Hsplit Hbefore Hc.
        rewrite Hsplit, (first_existing_at w before c after Hbefore Hc) in Hfirst.
        discriminate.
  - exists "helm". split; [reflexivity|]. do 3 (split; [auto|]). split; [|auto].
    intros r' before c after Hr'. discriminate.
Qed.

(** Every way [install_helm] can go: the answer, the receiver and the commands
    issued.  [helm'] is the helm path the receiver ends with. *)
Lemma install_helm_cases (w : World) (p : Proc) :
  let s := self p in
  let v0 := helm_version_command w (helm_path s) in
  let after_v0 := (trace p ++ [Exec v0])%list in
  exists ok helm' evs,
    install_helm w p
    = (Ok ok,
       mkProc (mkSelf (kubeconfig s) (namespace s) (helm_installed s || ok)
                 (keda_installed s) helm')
         (trace p ++ evs)) /\
    let v1 := helm_version_command w helm' in
    ((evs = [Exec v0] /\ helm' = helm_path s /\
      ok = command_ok w (trace p) v0 /\
      (ok = true \/ subprocess_run w (trace p) v0 = None))
     \/
     (subprocess_run w (trace p) v0 <> None /\ command_ok w (trace p) v0 = false /\
      ((command_ok w after_v0 (choco_command w) = true /\
        evs = [Exec v0; Exec (choco_command w); where_helm w; Exec v1] /\
        ok = command_ok w (after_v0 ++ [Exec (choco_command w); where_helm w]) v1)
       \/
       (command_ok w after_v0 (choco_command w) = false /\
        command_ok w (after_v0 ++ [Exec (choco_command w)]) (winget_command w) = true /\
        evs = [Exec v0; Exec (choco_command w); Exec (winget_command w);
               where_helm w; Exec v1] /\
        ok = command_ok w
               (after_v0 ++ [Exec (choco_command w); Exec (winget_command w); where_helm w])
               v1)
       \/
       (command_ok w after_v0 (choco_command w) = false /\
        command_ok w (after_v0 ++ [Exec (choco_command w)]) (winget_command w) = false /\
        evs = [Exec v0; Exec (choco_command w); Exec (winget_command w)] /\
        helm' = helm_path s /\ ok = false)))).
Proof.
  destruct p as [[kc ns helm_in keda_in helm] tr]. cbv zeta.
  unfold install_helm, try_except_Exception, try_except_all, get_self, modify_self,
    run_command, helm_version_command, choco_command, winget_command, command_ok,
    set_helm_installed, set_helm_path, log.
  cbn [bind ret M_Monad self trace kubeconfig namespace helm_installed keda_installed
         helm_path andb fst snd].
  destruct (subprocess_run w tr _) as [r0|] eqn:Hv0.
  2:{ exists false, helm, [Exec (shell_command w (helm ++ " version"))].
      rewrite orb_false_r. split; [reflexivity|]. left. auto. }
  destruct (returncode r0 =? 0) eqn:Hr0.
  { exists true, helm, [Exec (shell_command w (helm ++ " version"))].
    cbn [bind ret M_Monad self trace kubeconfig namespace helm_installed keda_installed
           helm_path fst snd].
    rewrite orb_true_r. split; [reflexivity|]. left. auto. }
  cbn [bind ret M_Monad self trace kubeconfig namespace helm_installed keda_installed
         helm_path fst snd negb is_Exception].
  destruct (subprocess_run w (tr ++ [Exec (shell_command w (helm ++ " version"))]) _)
    as [rc|] eqn:Hchoco.
  1: destruct (returncode rc =? 0) eqn:Hrc.
  1:{ (* choco succeeded *)
      cbn [negb bind ret M_Monad fst snd self trace].
      match goal with
      | |- context [find_helm_path ?w ?q] =>
          destruct (find_helm_path_run w q) as [path ->]
      end.
      cbn [bind ret M_Monad self trace kubeconfig namespace helm_installed keda_installed
             helm_path fst snd log].
      rewrite <- ?app_assoc. cbn [app].
      destruct (subprocess_run w _ (shell_command w (path ++ " version"))) as [r1|] eqn:Hv1.
      - destruct (returncode r1 =? 0) eqn:Hr1;
          cbn [negb is_Exception bind ret M_Monad self trace kubeconfig namespace
                 helm_installed keda_installed helm_path fst snd].
        + exists true, path. eexists. rewrite orb_true_r, <- ?app_assoc. cbn [app].
          split; [reflexivity|]. right. split; [discriminate|]. split; [reflexivity|].
          left. unfold where_helm. rewrite <- ?app_assoc. cbn [app]. rewrite Hv1, Hr1. auto.
        + exists false, path. eexists. rewrite orb_false_r, <- ?app_assoc. cbn [app].
          split; [reflexivity|]. right. split; [discriminate|]. split; [reflexivity|].
          left. unfold where_helm. rewrite <- ?app_assoc. cbn [app]. rewrite Hv1, Hr1. auto.
      - cbn [is_Exception].
        exists false, path. eexists. rewrite orb_false_r, <- ?app_assoc. cbn [app].
        split; [reflexivity|]. right. split; [discriminate|]. split; [reflexivity|].
        left. unfold where_helm. rewrite <- ?app_assoc. cbn [app]. rewrite Hv1. auto. }
  all: cbn [negb bind ret M_Monad fst snd self trace];
    destruct (subprocess_run w
                ((tr ++ [Exec (shell_command w (helm ++ " version"))]) ++
                 [Exec (shell_command w "choco install kubernetes-helm -y")]) _)
      as [rw|] eqn:Hwinget;
    [destruct (returncode rw =? 0) eqn:Hrw|];
    cbn [negb is_Exception bind ret M_Monad fst snd self trace].
  all: try (exists false, helm; eexists; rewrite orb_false_r, <- ?app_assoc; cbn [app];
            split; [reflexivity|]; right; split; [discriminate|]; split; [reflexivity|];
            right; right; rewrite <- ?app_assoc; cbn [app]; rewrite ?Hwinget, ?Hrw;
            solve [auto]).
  all: match goal with
       | |- context [find_helm_path ?w ?q] =>
           destruct (find_helm_path_run w q) as [path ->]
       end;
    cbn [bind ret M_Monad self trace kubeconfig namespace helm_installed keda_installed
           helm_path fst snd log];
    rewrite <- ?app_assoc; cbn [app];
    destruct (subprocess_run w _ (shell_command w (path ++ " version"))) as [r1|] eqn:Hv1;
    [destruct (returncode r1 =? 0) eqn:Hr1|];
    cbn [negb is_Exception bind ret M_Monad self trace kubeconfig namespace
           helm_installed keda_installed helm_path fst snd].
  all: first [ exists true, path; eexists; rewrite orb_true_r, <- ?app_assoc; cbn [app];
               split; [reflexivity|]
             | exists false, path; eexists; rewrite orb_false_r, <- ?app_assoc; cbn [app];
               split; [reflexivity|] ];
    right; split; [discriminate|]; split; [reflexivity|];
    right; left; unfold where_helm; rewrite <- ?app_assoc; cbn [app];
    rewrite ?Hwinget, ?Hrw, ?Hv1, ?Hr1; auto.
Qed.

(** The commands of [install_helm], in order: [helm version] first; the
    installers only when that completed with a non-zero status; [winget] only
    when [choco] failed; the lookup and the second [helm version] only when an
    installer succeeded.  The answer is [True] exactly when the last
    [helm version] of the run exited with status 0. *)
Theorem install_helm_command_sequence (w : World) (p : Proc) :
  exists ok p',
    install_helm w p = (Ok ok, p') /\
    let v0 := helm_version_command w (helm_path (self p)) in
    let v1 := helm_version_command w (helm_path (self p')) in
    let after_v0 := (trace p ++ [Exec v0])%list in
    ((effects_of p p' = [Exec v0] /\
      ok = command_ok w (trace p) v0 /\
      (ok = true \/ subprocess_run w (trace p) v0 = None))
     \/
     (subprocess_run w (trace p) v0 <> None /\ command_ok w (trace p) v0 = false /\
      ((command_ok w after_v0 (choco_command w) = true /\
        effects_of p p' = [Exec v0; Exec (choco_command w); where_helm w; Exec v1] /\
        ok = command_ok w (after_v0 ++ [Exec (choco_command w); where_helm w]) v1)
       \/
       (command_ok w after_v0 (choco_command w) = false /\
        command_ok w (after_v0 ++ [Exec (choco_command w)]) (winget_command w) = true /\
        effects_of p p' = [Exec v0; Exec (choco_command w); Exec (winget_command w);
                           where_helm w; Exec v1] /\
        ok = command_ok w
               (after_v0 ++ [Exec (choco_command w); Exec (winget_command w); where_helm w])
               v1)
       \/
       (command_ok w after_v0 (choco_command w) = false /\
        command_ok w (after_v0 ++ [Exec (choco_command w)]) (winget_command w) = false /\
        effects_of p p' = [Exec v0; Exec (choco_command w); Exec (winget_command w)] /\
        ok = false)))).
Proof.
  destruct (install_helm_cases w p) as (ok & helm' & evs & Hrun & Hcases).
  cbv zeta in *. eexists. eexists. split; [exact Hrun|].
  rewrite effects_of_app. cbn [self helm_path].
  destruct Hcases as [(-> & _ & Hok & Hwhy)|(Hran & Hv0 & Hcases)].
  - left. auto.
  - right. split; [exact Hran|]. split; [exact Hv0|].
    destruct Hcases as [(Hc & -> & Hok)|[(Hc & Hw & -> & Hok)|(Hc & Hw & -> & _ & Hok)]];
      auto 10.
Qed.

(** [install_helm] records helm as installed only after a [helm version]
    that exited with status 0, issued with the helm path the receiver ends
    with; when it answers [False] the flag keeps its value.  It writes no file
    and leaves the kubeconfig, the namespace and [keda_installed] alone. *)
Theorem install_helm_records_only_verified (w : World) (p : Proc) :
  exists ok p',
    install_helm w p = (Ok ok, p') /\
    kubeconfig (self p') = kubeconfig (self p) /\
    namespace (self p') = namespace (self p) /\
    keda_installed (self p') = keda_installed (self p) /\
    helm_installed (self p') = helm_installed (self p) || ok /\
    written (effects_of p p') = [] /\
    (ok = true ->
     exists h,
       trace p' = (h ++ [Exec (helm_version_command w (helm_path (self p')))])%list /\
       command_ok w h (helm_version_command w (helm_path (self p'))) = true).
Proof.
  destruct (install_helm_cases w p) as (ok & helm' & evs & Hrun & Hcases).
  cbv zeta in *. eexists. eexists. split; [exact Hrun|].
  rewrite effects_of_app. cbn [self trace kubeconfig namespace helm_installed
                                 keda_installed helm_path].
  repeat split.
  - destruct Hcases as [(-> & _)|(_ & _ & [(_ & -> & _)|[(_ & _ & -> & _)|(_ & _ & -> & _)]])];
      reflexivity.
  - intros ->.
    destruct Hcases
      as [(-> & -> & Hok & _)
         |(_ & _ & [(_ & -> & Hok)|[(_ & _ & -> & Hok)|(_ & _ & _ & _ & Hok)]])].
    + exists (trace p). auto.
    + match type of Hok with _ = command_ok _ ?h _ => exists h end.
      split; [|symmetry; exact Hok]. rewrite <- !app_assoc. reflexivity.
    + match type of Hok with _ = command_ok _ ?h _ => exists h end.
      split; [|symmetry; exact Hok]. rewrite <- !app_assoc. reflexivity.
    + discriminate.
Qed.

(** With helm recorded as installed, [install_keda] carries out its four
    commands in order, as far as they succeed, and then looks for the
    operator in the pod listing. *)
Lemma install_keda_run_plan (w : World) (p : Proc) :
  helm_installed (self p) = true ->
  install_keda w p
  = let (evs, ok) := run_plan w (trace p) (map Exec (keda_commands w (self p))) in
    let listed :=
      ok && match answer w (trace p ++ map Exec (firstn 3 (keda_commands w (self p))))
                    (nth 3 (keda_commands w (self p)) "") with
            | Some out => str_contains "keda-operator" out
            | None => false
            end in
    (Ok listed,
     mkProc (if listed then set_keda_installed true (self p) else self p)
       (trace p ++ evs)).
Proof.
  destruct p as [s tr]. cbn [self trace]. intros Hhelm.
  unfold install_keda, try_except_Exception, get_self, modify_self, run_command,
    keda_commands, answer, log.
  cbn [bind ret M_Monad self trace fst snd map firstn nth app andb].
  rewrite Hhelm. cbn [negb run_plan self trace]. unfold command_ok.
  match goal with
  | |- context [(tr ++ [?a; ?b; ?c])%list] =>
      replace (tr ++ [a; b; c])%list with (((tr ++ [a]) ++ [b]) ++ [c])%list
        by (rewrite <- !app_assoc; reflexivity)
  end.
  repeat (split_match;
          cbn [run_plan app andb negb is_Exception fst snd self trace bind ret M_Monad]);
    rewrite <- ?app_assoc; cbn [app]; rewrite ?app_nil_r;
    reflexivity.
Qed.

Lemma executed_map_Exec (cs : list string) : executed (map Exec cs) = cs.
Proof. induction cs as [|c cs IH]; simpl; congruence. Qed.

Lemma written_map_Exec (cs : list string) : written (map Exec cs) = [].
Proof. induction cs as [|c cs IH]; simpl; auto. Qed.

Lemma written_prefix (l1 l2 : list Event) :
  prefix_of l1 l2 -> written l2 = [] -> written l1 = [].
Proof.
  intros [rest ->]. rewrite written_app. intros H.
  apply app_eq_nil in H. tauto.
Qed.

(** [install_keda] always answers; it changes the receiver only by setting
    [keda_installed], and only when it answers [True]. *)
Lemma install_keda_total (w : World) (p : Proc) :
  exists (ok : bool) (evs : list Event),
    install_keda w p
    = (Ok ok,
       mkProc (if ok then set_keda_installed true (self p) else self p) (trace p ++ evs)) /\
    written evs = [] /\
    (ok = true -> helm_installed (self p) = true).
Proof.
  destruct (helm_installed (self p)) eqn:Hhelm.
  - rewrite (install_keda_run_plan w p Hhelm).
    pose proof (run_plan_prefix w (map Exec (keda_commands w (self p))) (trace p)) as Hpre.
    destruct (run_plan w (trace p) _) as [evs ok]. cbn [fst snd] in *. cbv zeta.
    eexists. exists evs. split; [reflexivity|]. split; [|auto].
    eapply written_prefix; [exact Hpre|apply written_map_Exec].
  - rewrite (install_keda_without_helm w p Hhelm).
    exists false, (@nil Event). rewrite app_nil_r. destruct p.
    repeat split. discriminate.
Qed.

(** With helm recorded as installed, [install_keda] issues [helm repo add],
    [helm repo update], [helm install] and [kubectl get pods], in this order
    and nothing else, each one as long as the ones before it succeeded: what
    it issues is exactly the run of these four up to the first failure.  When
    all four succeed, all four are issued and the answer is whether the pod
    listing contains [keda-operator]; a command that fails is the last one
    issued and makes the answer [False]; the answer is [True] only if all
    four were issued and the listing contains [keda-operator].  The flag
    [keda_installed] is set when the answer is [True], and the receiver is
    left as it was otherwise. *)
Theorem install_keda_command_sequence (w : World) (p : Proc) :
  helm_installed (self p) = true ->
  exists (ok : bool) (evs : list Event),
    install_keda w p
    = (Ok ok,
       mkProc (if ok then set_keda_installed true (self p) else self p) (trace p ++ evs)) /\
    written evs = [] /\
    prefix_of (executed evs) (keda_commands w (self p)) /\
    (forall h c rest,
        evs = (h ++ Exec c :: rest)%list ->
        command_ok w (trace p ++ h)%list c = false ->
        rest = [] /\ ok = false) /\
    (ok = true ->
     executed evs = keda_commands w (self p) /\
     exists out,
       answer w (trace p ++ map Exec (firstn 3 (keda_commands w (self p))))
         (nth 3 (keda_commands w (self p)) "") = Some out /\
       str_contains "keda-operator" out = true) /\
    (forall out,
        answer w (trace p ++ map Exec (firstn 3 (keda_commands w (self p))))
          (nth 3 (keda_commands w (self p)) "") = Some out ->
        str_contains "keda-operator" out = false ->
        ok = false) /\
    evs = fst (run_plan w (trace p) (map Exec (keda_commands w (self p)))) /\
    ok = snd (run_plan w (trace p) (map Exec (keda_commands w (self p))))
         && match answer w (trace p ++ map Exec (firstn 3 (keda_commands w (self p))))
                    (nth 3 (keda_commands w (self p)) "") with
            | Some out => str_contains "keda-operator" out
            | None => false
            end /\
    ((forall pre c post,
         keda_commands w (self p) = (pre ++ c :: post)%list ->
         command_ok w (trace p ++ map Exec pre)%list c = true) ->
     evs = map Exec (keda_commands w (self p)) /\
     executed evs = keda_commands w (self p) /\
     exists out,
       answer w (trace p ++ map Exec (firstn 3 (keda_commands w (self p))))
         (nth 3 (keda_commands w (self p)) "") = Some out /\
       ok = str_contains "keda-operator" out).
Proof.
  intros Hhelm. rewrite (install_keda_run_plan w p Hhelm).
  set (plan := map Exec (keda_commands w (self p))).
  pose proof (run_plan_prefix w plan (trace p)) as Hpre.
  pose proof (run_plan_complete w plan (trace p)) as Hcomplete.
  pose proof (run_plan_abort w plan (trace p)) as Habort.
  pose proof (run_plan_commands_accept w (keda_commands w (self p)) (trace p)) as Hacc.
  fold plan in Hacc.
  destruct (run_plan w (trace p) plan) as [evs ok]. cbn [fst snd] in *. cbv zeta.
  eexists. exists evs. split; [reflexivity|].
  split; [eapply written_prefix; [exact Hpre|apply written_map_Exec]|].
  split.
  { rewrite <- (executed_map_Exec (keda_commands w (self p))).
    apply prefix_of_executed. exact Hpre. }
  split.
  { intros h c rest Heq Hfail. destruct (Habort h c rest Heq Hfail) as [-> ->]. auto. }
  split.
  { intros Hok. apply andb_true_iff in Hok. destruct Hok as [Hok Hlisted].
    rewrite (Hcomplete Hok). split; [apply executed_map_Exec|].
    destruct (answer w _ _) as [out|]; [eauto|discriminate]. }
  split.
  { intros out -> ->. apply andb_false_r. }
  split; [reflexivity|]. split; [reflexivity|].
  intros Hall. specialize (Hacc Hall). injection Hacc as -> ->.
  split; [reflexivity|]. split; [apply executed_map_Exec|].
  pose proof (Hall (firstn 3 (keda_commands w (self p)))
                (nth 3 (keda_commands w (self p)) "") [] eq_refl) as Hlast.
  unfold command_ok in Hlast. unfold answer.
  destruct (subprocess_run w _ _) as [r|]; [|discriminate].
  rewrite Hlast. eexists. split; reflexivity.
Qed.

(** [install_keda] answers [True] only with helm recorded as installed; it
    sets [keda_installed] exactly when it answers [True] and otherwise leaves
    the receiver as it was; it writes no file. *)
Theorem install_keda_sets_flag_only_on_success (w : World) (p : Proc) :
  exists ok p',
    install_keda w p = (Ok ok, p') /\
    (ok = true -> helm_installed (self p) = true /\ keda_installed (self p') = true) /\
    (ok = false -> self p' = self p) /\
    kubeconfig (self p') = kubeconfig (self p) /\
    namespace (self p') = namespace (self p) /\
    helm_installed (self p') = helm_installed (self p) /\
    helm_path (self p') = helm_path (self p) /\
    written (effects_of p p') = [].
Proof.
  destruct (install_keda_total w p) as (ok & evs & Hrun & Hwritten & Hgate).
  eexists. eexists. split; [exact Hrun|].
  rewrite effects_of_app. cbn [self].
  destruct ok; repeat split; auto; discriminate.
Qed.

(* ------------------------------------------------------------------------ *)
(** ** Further properties: [verify_keda_installation] *)

(** The three checks, one after the other. *)
Lemma verify_keda_installation_run (w : World) (p : Proc) :
  let s := self p in
  let p1 := log (Exec (keda_pods_query w s)) p in
  let p2 := log (Exec (keda_deployments_query w s)) p1 in
  let p3 := log (Exec (crd_query w s)) p2 in
  verify_keda_installation w p
  = match answer w (trace p) (keda_pods_query w s) with
    | None => (Ok false, p1)
    | Some pods =>
        if str_contains "keda-operator" pods && str_contains "Running" pods then
          match answer w (trace p1) (keda_deployments_query w s) with
          | None => (Ok false, p2)
          | Some deployments =>
              if str_contains "keda-operator" deployments
                 && str_contains "1/1" deployments
              then
                match answer w (trace p2) (crd_query w s) with
                | None => (Ok false, p3)
                | Some crds =>
                    (Ok (forallb (fun crd => str_contains crd crds) required_crds), p3)
                end
              else (Ok false, p2)
          end
        else (Ok false, p1)
    end.
Proof.
  destruct p as [s tr]. cbv zeta.
  unfold verify_keda_installation, try_except_Exception, get_self, run_command, answer,
    keda_pods_query, keda_deployments_query, crd_query, required_crds, log.
  cbn [bind ret M_Monad self trace fst snd andb filter forallb].
  repeat (split_match;
          cbn [andb orb negb is_Exception fst snd self trace bind ret M_Monad]);
    reflexivity.
Qed.

(** [verify_keda_installation] answers [True] exactly when the pod listing
    completes and mentions [keda-operator] and [Running], then the deployment
    listing completes and mentions [keda-operator] and [1/1], then the CRD
    listing completes and mentions every required CRD. *)
Theorem verify_keda_true_iff (w : World) (p : Proc) :
  fst (verify_keda_installation w p) = Ok true <->
  exists pods deployments crds,
    answer w (trace p) (keda_pods_query w (self p)) = Some pods /\
    str_contains "keda-operator" pods = true /\
    str_contains "Running" pods = true /\
    answer w (trace p ++ [Exec (keda_pods_query w (self p))])
      (keda_deployments_query w (self p)) = Some deployments /\
    str_contains "keda-operator" deployments = true /\
    str_contains "1/1" deployments = true /\
    answer w (trace p ++ [Exec (keda_pods_query w (self p));
                          Exec (keda_deployments_query w (self p))])
      (crd_query w (self p)) = Some crds /\
    forall crd, In crd required_crds -> str_contains crd crds = true.
Proof.
  rewrite verify_keda_installation_run. cbv zeta. cbn [log trace].
  rewrite <- app_assoc. cbn [app].
  split.
  - destruct (answer w (trace p) _) as [pods|]; [|discriminate].
    destruct (str_contains "keda-operator" pods) eqn:H1; [|discriminate].
    destruct (str_contains "Running" pods) eqn:H2; [|discriminate].
    cbn [andb].
    destruct (answer w (trace p ++ [_]) _) as [deployments|]; [|discriminate].
    destruct (str_contains "keda-operator" deployments) eqn:H3; [|discriminate].
    destruct (str_contains "1/1" deployments) eqn:H4; [|discriminate].
    cbn [andb].
    destruct (answer w (trace p ++ [_; _]) _) as [crds|]; [|discriminate].
    cbn [fst]. intros H. injection H as H.
    exists pods, deployments, crds. repeat split; auto.
    apply forallb_forall. exact H.
  - intros (pods & deployments & crds & -> & -> & -> & -> & -> & -> & -> & Hcrds).
    cbn [andb fst]. f_equal. apply forallb_forall. exact Hcrds.
Qed.

(** [verify_keda_installation] only looks: it always answers, leaves the
    receiver as it was ([keda_installed] included, even when the check
    passes), writes no file and issues one, two or all three of its queries,
    in order; all three when it answers [True]. *)
Theorem verify_keda_only_looks (w : World) (p : Proc) :
  exists ok evs,
    verify_keda_installation w p = (Ok ok, mkProc (self p) (trace p ++ evs)) /\
    (evs = [Exec (keda_pods_query w (self p))] \/
     evs = [Exec (keda_pods_query w (self p));
            Exec (keda_deployments_query w (self p))] \/
     evs = [Exec (keda_pods_query w (self p));
            Exec (keda_deployments_query w (self p));
            Exec (crd_query w (self p))]) /\
    (ok = true ->
     evs = [Exec (keda_pods_query w (self p));
            Exec (keda_deployments_query w (self p));
            Exec (crd_query w (self p))]).
Proof.
  rewrite verify_keda_installation_run. cbv zeta. unfold log. cbn [self trace].
  rewrite <- !app_assoc. cbn [app].
  destruct (answer w (trace p) _) as [pods|];
    [|eexists; eexists; split; [reflexivity|]; split; [auto|discriminate]].
  destruct (str_contains "keda-operator" pods && str_contains "Running" pods);
    [|eexists; eexists; split; [reflexivity|]; split; [auto|discriminate]].
  destruct (answer w (trace p ++ [_]) _) as [deployments|];
    [|eexists; eexists; split; [reflexivity|]; split; [auto|discriminate]].
  destruct (str_contains "keda-operator" deployments && str_contains "1/1" deployments);
    [|eexists; eexists; split; [reflexivity|]; split; [auto|discriminate]].
  destruct (answer w (trace p ++ [_; _]) _) as [crds|];
    eexists; eexists; (split; [reflexivity|]); split; auto; discriminate.
Qed.

(* ------------------------------------------------------------------------ *)
(** ** Further properties: the folds of [pod_status] *)

(** [all] stops at the first container status that is not ready: the pod is
    reported not ready even if a later container status has no ["ready"]
    entry at all, as long as every restart count can be summed. *)
Theorem pod_ready_stops_at_first_unready
  (pod pod_name phase st not_ready : pyval) (before after : list pyval) (restarts : Z) :
  (metadata <- subscript pod "metadata" ;; subscript metadata "name") = Ok pod_name ->
  subscript pod "status" = Ok st ->
  subscript st "phase" = Ok phase ->
  container_statuses pod = Ok (before ++ not_ready :: after)%list ->
  (forall c, In c before -> reports_ready c = true) ->
  (exists v, subscript not_ready "ready" = Ok v /\ truthy v = false) ->
  py_sum (fun c => subscript c "restartCount") 0 (before ++ not_ready :: after) = Ok restarts ->
  pod_status pod
  = Ok (PDict [ ("name", pod_name); ("status", phase);
                ("ready", PBool false); ("restarts", PInt restarts) ]).
Proof.
  unfold pod_status, container_statuses. cbn [bind ret result_Monad].
  destruct (subscript pod "metadata") as [metadata|]; [|discriminate].
  intros ->. intros ->. intros ->.
  destruct (py_get st "containerStatuses" (PList [])) as [statuses|]; [|discriminate].
  intros ->. intros Hbefore (v & Hv & Hfalse) ->.
  assert (Hall : py_all (fun c => subscript c "ready") (before ++ not_ready :: after)
                 = Ok false).
  { clear - Hbefore Hv Hfalse. induction before as [|c before IH]; simpl.
    - rewrite Hv. simpl. rewrite Hfalse. reflexivity.
    - pose proof (Hbefore c (or_introl eq_refl)) as Hc. unfold reports_ready in Hc.
      destruct (subscript c "ready") as [vc|]; [|discriminate].
      simpl. rewrite Hc. apply IH. intros c' Hin. apply Hbefore. right. exact Hin. }
  rewrite Hall. reflexivity.
Qed.

(** A container status without a usable restart count makes the whole entry
    fail, ready or not. *)
Lemma py_sum_raises (f : pyval -> result pyval) (l : list pyval) (c : pyval) :
  In c l ->
  (forall z, exists e, (v <- f c ;; py_add z v) = Raise e) ->
  forall acc, exists e, py_sum f acc l = Raise e.
Proof.
  intros Hin Hc. induction l as [|c0 l IH]; [destruct Hin|].
  intros acc. simpl.
  destruct (f c0) as [v0|e0] eqn:Hc0; [|eauto].
  simpl. destruct (py_add acc v0) as [acc'|e0] eqn:Hadd; [|eauto].
  destruct Hin as [->|Hin].
  - destruct (Hc acc) as [e He]. rewrite Hc0 in He. simpl in He. congruence.
  - apply IH. exact Hin.
Qed.

Lemma mapM_raises {A B} (f : A -> result B) (l : list A) (x : A) :
  In x l -> (exists e, f x = Raise e) -> exists e, mapM f l = Raise e.
Proof.
  intros Hin [e He]. induction l as [|x0 l IH]; [destruct Hin|].
  simpl. destruct (f x0) as [y0|e0] eqn:Hx0; [|eauto].
  destruct Hin as [->|Hin]; [congruence|].
  destruct (IH Hin) as [e' ->]. eauto.
Qed.

(** The restart counts are summed over every container status: one without a
    ["restartCount"] entry makes [pod_status] raise, whatever the readiness
    fold found. *)
Theorem pod_status_needs_every_restart_count
  (pod c : pyval) (cs : list pyval) (e : PyExn) :
  container_statuses pod = Ok cs ->
  In c cs ->
  subscript c "restartCount" = Raise e ->
  exists e', pod_status pod = Raise e'.
Proof.
  unfold pod_status, container_statuses. cbn [bind ret result_Monad].
  destruct (subscript pod "metadata") as [metadata|]; [|eauto].
  destruct (subscript metadata "name") as [pod_name|]; [|eauto].
  destruct (subscript pod "status") as [st|]; [|discriminate].
  destruct (subscript st "phase") as [phase|]; [|eauto].
  destruct (py_get st "containerStatuses" (PList [])) as [statuses|]; [|discriminate].
  intros ->. intros Hin Hc.
  destruct (py_all _ cs) as [ready|]; [|eauto].
  destruct (py_sum_raises (fun c => subscript c "restartCount") cs c Hin) with (acc := 0)
    as [e' ->]; [|eauto].
  intros z. rewrite Hc. simpl. eauto.
Qed.

Lemma answer_some (w : World) (h : list Event) (c out : string) :
  answer w h c = Some out <->
  exists r, subprocess_run w h c = Some r /\ (returncode r =? 0) = true /\ out = stdout r.
Proof.
  unfold answer. destruct (subprocess_run w h c) as [r|].
  - destruct (returncode r =? 0) eqn:Hr; split.
    + intros H. injection H as <-. eauto.
    + intros (r' & Hr' & _ & ->). injection Hr' as <-. reflexivity.
    + discriminate.
    + intros (r' & Hr' & Hrc & _). injection Hr' as <-. congruence.
  - split; [discriminate|]. intros (r & Hr & _). discriminate.
Qed.

Lemma answer_command_ok (w : World) (h : list Event) (c : string) :
  command_ok w h c = match answer w h c with Some _ => true | None => false end.
Proof.
  unfold command_ok, answer. destruct (subprocess_run w h c) as [r|]; [|reflexivity].
  destruct (returncode r =? 0); reflexivity.
Qed.

Lemma py_get_dict (kvs : list (string * pyval)) (k : string) (d : pyval) :
  py_get (PDict kvs) k d = Ok (match assoc k kvs with Some v => v | None => d end).
Proof. unfold py_get. destruct (assoc k kvs); reflexivity. Qed.

(** The header of the status record needs a dict under ["status"]. *)
Lemma status_header_ok (name : string) (deployment : pyval) (hdr : list (string * pyval)) :
  status_header name deployment = Ok hdr ->
  exists kvs,
    subscript deployment "status" = Ok (PDict kvs) /\
    hdr = [ ("name", PStr name);
            ("ready_replicas",
              match assoc "readyReplicas" kvs with Some v => v | None => PInt 0 end);
            ("available_replicas",
              match assoc "availableReplicas" kvs with Some v => v | None => PInt 0 end);
            ("unavailable_replicas",
              match assoc "unavailableReplicas" kvs with Some v => v | None => PInt 0 end);
            ("conditions",
              match assoc "conditions" kvs with Some v => v | None => PList [] end) ].
Proof.
  unfold status_header, deployment_status_field. cbn [bind ret result_Monad].
  destruct (subscript deployment "status") as [st|]; [|discriminate].
  destruct st as [| | | | |kvs]; try discriminate.
  rewrite !py_get_dict. intros H. injection H as <-. exists kvs. split; reflexivity.
Qed.

(* ------------------------------------------------------------------------ *)
(** ** Further properties: the status query, for any JSON decoder *)

Section StatusProperties.

Variable json_loads : string -> option pyval.

(** [get_deployment_status] always answers and leaves the receiver as it was.
    It issues the deployment query, and then the pod query exactly when the
    deployment query completed, its answer decoded and the header of the
    record could be built; a record is returned only after both queries. *)
Theorem status_queries_in_order (name : string) (w : World) (p : Proc) :
  exists o evs,
    get_deployment_status json_loads name w p
    = (Ok o, mkProc (self p) (trace p ++ evs)) /\
    (evs = [Exec (deployment_query w (self p) name)] \/
     evs = [Exec (deployment_query w (self p) name); Exec (pods_query w (self p) name)]) /\
    (evs = [Exec (deployment_query w (self p) name); Exec (pods_query w (self p) name)] <->
     exists out deployment hdr,
       answer w (trace p) (deployment_query w (self p) name) = Some out /\
       json_loads out = Some deployment /\
       status_header name deployment = Ok hdr) /\
    (o <> None ->
     evs = [Exec (deployment_query w (self p) name); Exec (pods_query w (self p) name)]).
Proof.
  rewrite get_deployment_status_run. cbv zeta. unfold log, answer. cbn [self trace].
  rewrite <- !app_assoc. cbn [app].
  assert (Hshort : forall q1 q2 : Event, [q1] = [q1; q2] -> False) by discriminate.
  destruct (subprocess_run w (trace p) _) as [r1|].
  2:{ eexists; eexists; split; [reflexivity|]. split; [auto|]. split; [|congruence].
      split; [intros H; destruct (Hshort _ _ H)|]. intros (? & ? & ? & ? & _). discriminate. }
  destruct (returncode r1 =? 0).
  2:{ eexists; eexists; split; [reflexivity|]. split; [auto|]. split; [|congruence].
      split; [intros H; destruct (Hshort _ _ H)|]. intros (? & ? & ? & ? & _). discriminate. }
  destruct (json_loads (stdout r1)) as [deployment|] eqn:Hd.
  2:{ eexists; eexists; split; [reflexivity|]. split; [auto|]. split; [|congruence].
      split; [intros H; destruct (Hshort _ _ H)|].
      intros (? & ? & ? & H & H' & _). injection H as <-. congruence. }
  destruct (status_header name deployment) as [hdr|] eqn:Hhdr.
  2:{ eexists; eexists; split; [reflexivity|]. split; [auto|]. split; [|congruence].
      split; [intros H; destruct (Hshort _ _ H)|].
      intros (? & ? & ? & H & H' & H''). injection H as <-. congruence. }
  assert (Hboth : exists out deployment0 hdr0,
             Some (stdout r1) = Some out /\
             json_loads out = Some deployment0 /\
             status_header name deployment0 = Ok hdr0)
    by (exists (stdout r1), deployment, hdr; auto).
  destruct (subprocess_run w (trace p ++ [_]) _) as [r2|].
  2:{ eexists; eexists; split; [reflexivity|]. repeat split; auto. }
  destruct (returncode r2 =? 0).
  2:{ eexists; eexists; split; [reflexivity|]. repeat split; auto. }
  destruct (json_loads (stdout r2)) as [pods|].
  2:{ eexists; eexists; split; [reflexivity|]. repeat split; auto. }
  destruct (pod_statuses pods) as [entries|];
    eexists; eexists; (split; [reflexivity|]); repeat split; auto.
Qed.

(** In a record that is returned, [name] is the name asked for, and the three
    replica counts and the conditions are those of the deployment's status,
    with 0 (and the empty list) in place of an entry that is missing. *)
Theorem status_replica_defaults
  (name : string) (w : World) (p p' : Proc) (status : pyval) :
  get_deployment_status json_loads name w p = (Ok (Some status), p') ->
  exists out deployment kvs,
    answer w (trace p) (deployment_query w (self p) name) = Some out /\
    json_loads out = Some deployment /\
    subscript deployment "status" = Ok (PDict kvs) /\
    subscript status "name" = Ok (PStr name) /\
    subscript status "ready_replicas"
    = Ok (match assoc "readyReplicas" kvs with Some v => v | None => PInt 0 end) /\
    subscript status "available_replicas"
    = Ok (match assoc "availableReplicas" kvs with Some v => v | None => PInt 0 end) /\
    subscript status "unavailable_replicas"
    = Ok (match assoc "unavailableReplicas" kvs with Some v => v | None => PInt 0 end) /\
    subscript status "conditions"
    = Ok (match assoc "conditions" kvs with Some v => v | None => PList [] end).
Proof.
  rewrite get_deployment_status_run. cbv zeta. unfold answer.
  destruct (subprocess_run w (trace p) _) as [r1|]; [|discriminate].
  destruct (returncode r1 =? 0); [|discriminate].
  destruct (json_loads (stdout r1)) as [deployment|] eqn:Hd; [|discriminate].
  destruct (status_header name deployment) as [hdr|] eqn:Hhdr; [|discriminate].
  destruct (subprocess_run w _ (pods_query w (self p) name)) as [r2|]; [|discriminate].
  destruct (returncode r2 =? 0); [|discriminate].
  destruct (json_loads (stdout r2)) as [pods|]; [|discriminate].
  destruct (pod_statuses pods) as [entries|]; [|discriminate].
  intros H. injection H as <- _.
  destruct (status_header_ok name deployment hdr Hhdr) as (kvs & Hst & ->).
  exists (stdout r1), deployment, kvs. repeat split; auto.
Qed.

(** A deployment answer without a dict under ["status"] gives [None], and the
    pod query is not issued. *)
Theorem status_without_status_dict
  (name : string) (w : World) (p : Proc) (out : string) (deployment : pyval) :
  answer w (trace p) (deployment_query w (self p) name) = Some out ->
  json_loads out = Some deployment ->
  (forall kvs, subscript deployment "status" <> Ok (PDict kvs)) ->
  get_deployment_status json_loads name w p
  = (Ok None, log (Exec (deployment_query w (self p) name)) p).
Proof.
  intros Hout Hd Hstatus. apply answer_some in Hout.
  destruct Hout as (r1 & Hr1 & Hrc & ->).
  rewrite get_deployment_status_run. cbv zeta. rewrite Hr1, Hrc, Hd.
  destruct (status_header name deployment) as [hdr|] eqn:Hhdr; [|reflexivity].
  destruct (status_header_ok name deployment hdr Hhdr) as (kvs & Hst & _).
  destruct (Hstatus kvs Hst).
Qed.

(** One matched pod whose entry cannot be built costs the whole record. *)
Theorem status_lost_on_malformed_pod
  (name : string) (w : World) (p : Proc) (out : string) (pods pod : pyval)
  (items : list pyval) (e : PyExn) :
  answer w (trace p ++ [Exec (deployment_query w (self p) name)])
    (pods_query w (self p) name) = Some out ->
  json_loads out = Some pods ->
  pod_items pods = Ok items ->
  In pod items ->
  pod_status pod = Raise e ->
  fst (get_deployment_status json_loads name w p) = Ok None.
Proof.
  intros Hout Hpods Hitems Hin Hpod. apply answer_some in Hout.
  destruct Hout as (r2 & Hr2 & Hrc & ->).
  rewrite get_deployment_status_run. cbv zeta. cbn [log trace].
  destruct (subprocess_run w (trace p) _) as [r1|]; [|reflexivity].
  destruct (returncode r1 =? 0); [|reflexivity].
  destruct (json_loads (stdout r1)) as [deployment|]; [|reflexivity].
  destruct (status_header name deployment) as [hdr|]; [|reflexivity].
  rewrite Hr2, Hrc, Hpods.
  assert (Hfail : exists e', pod_statuses pods = Raise e').
  { unfold pod_statuses, pod_items in *. cbn [bind ret result_Monad] in *.
    destruct (subscript pods "items") as [l|]; [|discriminate].
    rewrite Hitems. eapply mapM_raises; eauto. }
  destruct Hfail as [e' ->]. reflexivity.
Qed.

End StatusProperties.

(* ------------------------------------------------------------------------ *)
(** ** Further properties: the manifests, for any YAML printer *)

Lemma manifest_steps_split (w : World) (s : KubernetesAutomation)
  (manifests : list (string * string)) :
  forall h c rest,
    manifest_steps w s manifests = (h ++ Exec c :: rest)%list ->
    exists h' path content,
      h = (h' ++ [Write path content])%list /\
      In (path, content) manifests /\
      c = apply_command w s path.
Proof.
  induction manifests as [|[path content] manifests IH]; intros h c rest; simpl.
  - destruct h; discriminate.
  - destruct h as [|e0 h]; [discriminate|]. simpl. intros H. injection H as <- H.
    destruct h as [|e1 h]; simpl in H.
    + injection H as <- _. exists [], path, content. auto.
    + injection H as <- H.
      destruct (IH h c rest H) as (h' & path' & content' & -> & Hin & ->).
      exists (Write path content :: Exec (apply_command w s path) :: h'), path', content'.
      auto.
Qed.

Section ManifestProperties.

Variable yaml_dump : pyval -> string.
Variables (name image tag : string) (replicas : Z).
Variables (cpu_request cpu_limit memory_request memory_limit : string).

Local Abbreviation deploy :=
  (create_deployment yaml_dump name image tag replicas
     cpu_request cpu_limit memory_request memory_limit).

(** The plan of a deploy is a list of manifests, each written and then
    applied. *)
Lemma deployment_plan_steps
  (w : World) (s : KubernetesAutomation) (ports : list Z) (keda_config : pyval) :
  exists manifests,
    deployment_plan yaml_dump w s name image tag replicas
      cpu_request cpu_limit memory_request memory_limit ports keda_config
    = manifest_steps w s manifests /\
    forall path content,
      In (path, content) manifests ->
      path = deployment_file name \/ path = service_file name \/
      path = scaled_object_file name.
Proof.
  unfold deployment_plan.
  destruct ports as [|port ports];
    destruct (truthy keda_config && keda_installed s);
    try destruct keda_config;
    cbn [app];
    first
      [ solve [ eexists [(_, _)]; split; [reflexivity|];
                intros path content [Hin|[]]; injection Hin as <- _; auto ]
      | solve [ eexists [(_, _); (_, _)]; split; [reflexivity|];
                intros path content [Hin|[Hin|[]]]; injection Hin as <- _; auto ]
      | solve [ eexists [(_, _); (_, _); (_, _)]; split; [reflexivity|];
                intros path content [Hin|[Hin|[Hin|[]]]]; injection Hin as <- _; auto ] ].
Qed.

(** [create_deployment] never applies a file it has not just written: every
    command it issues is [kubectl apply -f] of one of its three manifest
    files, and the effect right before it is the writing of that file. *)
Theorem deploy_applies_what_it_wrote
  (ports : option (list Z)) (keda_config : option pyval) (w : World) (p : Proc)
  (h : list Event) (c : string) (rest : list Event) :
  effects_of p (snd (deploy ports keda_config w p)) = (h ++ Exec c :: rest)%list ->
  exists h' path content,
    h = (h' ++ [Write path content])%list /\
    c = apply_command w (self p) path /\
    (path = deployment_file name \/ path = service_file name \/
     path = scaled_object_file name).
Proof.
  intros Heffects.
  destruct (create_deployment_effects yaml_dump name image tag replicas
              cpu_request cpu_limit memory_request memory_limit ports keda_config w p)
    as [tail Hplan].
  rewrite Heffects, <- app_assoc in Hplan. cbn [app] in Hplan.
  destruct (deployment_plan_steps w (self p) (effective_ports ports)
              (effective_policy keda_config)) as (manifests & Hsteps & Hfiles).
  rewrite Hsteps in Hplan.
  destruct (manifest_steps_split w (self p) manifests h c _ Hplan)
    as (h' & path & content & -> & Hin & ->).
  exists h', path, content. repeat split; auto. eapply Hfiles; eauto.
Qed.

(** The manifests that are written fit together: all are in the receiver's
    namespace; the workload selects the pods of its own template by the label
    [app = name]; the service selects the same label; the scaled object
    targets the deployment of that name. *)
Theorem written_manifests_agree
  (ports : option (list Z)) (keda_config : option pyval) (w : World) (p : Proc)
  (path content : string) :
  In (Write path content) (effects_of p (snd (deploy ports keda_config w p))) ->
  exists doc,
    content = yaml_dump doc /\
    lookup_path ["metadata"; "namespace"] doc = Some (PStr (namespace (self p))) /\
    ((path = deployment_file name /\
      lookup_path ["kind"] doc = Some (PStr "Deployment") /\
      lookup_path ["metadata"; "name"] doc = Some (PStr name) /\
      lookup_path ["spec"; "replicas"] doc = Some (PInt replicas) /\
      lookup_path ["spec"; "selector"; "matchLabels"; "app"] doc = Some (PStr name) /\
      lookup_path ["spec"; "template"; "metadata"; "labels"; "app"] doc = Some (PStr name))
     \/
     (path = service_file name /\
      lookup_path ["kind"] doc = Some (PStr "Service") /\
      lookup_path ["spec"; "selector"; "app"] doc = Some (PStr name) /\
      lookup_path ["spec"; "type"] doc = Some (PStr "ClusterIP"))
     \/
     (path = scaled_object_file name /\
      lookup_path ["kind"] doc = Some (PStr "ScaledObject") /\
      lookup_path ["spec"; "scaleTargetRef"; "kind"] doc = Some (PStr "Deployment") /\
      lookup_path ["spec"; "scaleTargetRef"; "name"] doc = Some (PStr name))).
Proof.
  intros H.
  apply (prefix_of_In _ _ _
           (create_deployment_effects yaml_dump name image tag replicas
              cpu_request cpu_limit memory_request memory_limit ports keda_config w p)) in H.
  apply deployment_plan_writes in H.
  destruct H as [[-> ->]|[(-> & _ & ->)|(-> & _ & kvs & _ & _ & ->)]];
    eexists; (split; [reflexivity|]); (split; [reflexivity|]).
  - left. repeat split.
  - right. left. repeat split.
  - right. right. repeat split.
Qed.

(** A policy that is true but not a dict (a JSON list, say) cannot be read
    with [.get]: with the controller recorded as installed,
    [create_deployment] answers [False] and writes no scaled object, after
    having gone through the workload and the service as usual. *)
Theorem deploy_rejects_non_dict_policy
  (ports : option (list Z)) (keda_config : pyval) (w : World) (p : Proc) :
  keda_installed (self p) = true ->
  truthy keda_config = true ->
  (forall kvs, keda_config <> PDict kvs) ->
  deploy ports (Some keda_config) w p
  = (Ok false,
     mkProc (self p)
       (trace p ++
        fst (run_plan w (trace p)
               (deployment_plan yaml_dump w (self p) name image tag replicas
                  cpu_request cpu_limit memory_request memory_limit
                  (effective_ports ports) (PDict []))))) /\
  ~ In (scaled_object_file name)
      (written (effects_of p (snd (deploy ports (Some keda_config) w p)))).
Proof.
  intros Hkeda Htruthy Hdict.
  assert (Hplan : deployment_plan yaml_dump w (self p) name image tag replicas
                    cpu_request cpu_limit memory_request memory_limit
                    (effective_ports ports) keda_config
                  = deployment_plan yaml_dump w (self p) name image tag replicas
                      cpu_request cpu_limit memory_request memory_limit
                      (effective_ports ports) (PDict [])).
  { unfold deployment_plan. rewrite Htruthy, Hkeda. cbn [truthy andb].
    destruct keda_config as [| | | | |kvs]; try reflexivity.
    destruct (Hdict kvs eq_refl). }
  assert (Hpolicy : policy_ok (self p) keda_config = false).
  { unfold policy_ok. rewrite Htruthy, Hkeda. cbn [andb negb orb].
    destruct keda_config as [| | | | |kvs]; try reflexivity.
    destruct (Hdict kvs eq_refl). }
  rewrite create_deployment_defaults, create_deployment_run_plan.
  cbn [effective_policy]. rewrite Hplan, Hpolicy.
  pose proof (run_plan_prefix w
                (deployment_plan yaml_dump w (self p) name image tag replicas
                   cpu_request cpu_limit memory_request memory_limit
                   (effective_ports ports) (PDict []))
                (trace p)) as Hprefix.
  destruct (run_plan w (trace p) _) as [evs ok]. cbn [fst snd] in *.
  rewrite andb_false_r, effects_of_app. split; [reflexivity|].
  intros Hin. apply written_In in Hin. destruct Hin as [content Hin].
  apply (prefix_of_In _ _ _ Hprefix) in Hin.
  apply deployment_plan_writes in Hin.
  destruct (manifest_files_distinct name) as (Hds & Hdo & Hso).
  destruct Hin as [[Hpath _]|[(Hpath & _)|(_ & _ & kvs & Hkvs & Hne & _)]];
    congruence.
Qed.

End ManifestProperties.

(* ------------------------------------------------------------------------ *)
(** ** Further properties: whole runs of the script *)

Lemma assoc_set_not_nil (k : string) (v : pyval) (kvs : list (string * pyval)) :
  assoc_set k v kvs <> [].
Proof.
  destruct kvs as [|[k' v'] kvs]; simpl; [discriminate|].
  destruct (k =? k')%string; discriminate.
Qed.

Lemma started_run (w : World) (kubeconfig : option string) (namespace : string) :
  exists helm,
    init kubeconfig namespace w new_proc
    = (Ok tt, mkProc (fresh_self kubeconfig namespace helm) [where_helm w]) /\
    started w kubeconfig namespace
    = mkProc (fresh_self kubeconfig namespace helm) [where_helm w].
Proof.
  unfold started.
  destruct (init_run kubeconfig namespace w new_proc) as [helm ->].
  exists helm. split; reflexivity.
Qed.

Lemma run_plan_first_command (w : World) (h : list Event) (c : string) (plan : list Event) :
  exists rest, fst (run_plan w h (Exec c :: plan)) = Exec c :: rest.
Proof.
  simpl. destruct (command_ok w h c).
  - destruct (run_plan w (h ++ [Exec c]) plan) as [evs ok]. exists evs. reflexivity.
  - exists []. reflexivity.
Qed.

Section RunProperties.

Variable json_loads : string -> option pyval.
Variable yaml_dump : pyval -> string.

(** [get_deployment_status] always answers, writes nothing, and a record it
    returns counts as true for [if status:]. *)
Lemma get_deployment_status_total (name : string) (w : World) (p : Proc) :
  exists o evs,
    get_deployment_status json_loads name w p
    = (Ok o, mkProc (self p) (trace p ++ evs)) /\
    written evs = [] /\
    (forall v, o = Some v -> truthy v = true).
Proof.
  rewrite get_deployment_status_run. cbv zeta. unfold log. cbn [self trace].
  rewrite <- !app_assoc. cbn [app].
  destruct (subprocess_run w (trace p) _) as [r1|];
    [|eexists; eexists; split; [reflexivity|]; split; [reflexivity|discriminate]].
  destruct (returncode r1 =? 0);
    [|eexists; eexists; split; [reflexivity|]; split; [reflexivity|discriminate]].
  destruct (json_loads (stdout r1)) as [deployment|];
    [|eexists; eexists; split; [reflexivity|]; split; [reflexivity|discriminate]].
  destruct (status_header name deployment) as [hdr|];
    [|eexists; eexists; split; [reflexivity|]; split; [reflexivity|discriminate]].
  destruct (subprocess_run w (trace p ++ [_]) _) as [r2|];
    [|eexists; eexists; split; [reflexivity|]; split; [reflexivity|discriminate]].
  destruct (returncode r2 =? 0);
    [|eexists; eexists; split; [reflexivity|]; split; [reflexivity|discriminate]].
  destruct (json_loads (stdout r2)) as [pods|];
    [|eexists; eexists; split; [reflexivity|]; split; [reflexivity|discriminate]].
  destruct (pod_statuses pods) as [entries|];
    [|eexists; eexists; split; [reflexivity|]; split; [reflexivity|discriminate]].
  eexists; eexists; split; [reflexivity|]. split; [reflexivity|].
  intros v H. injection H as <-. cbn [truthy].
  pose proof (assoc_set_not_nil "pods" (PList entries) hdr) as Hne.
  destruct (assoc_set "pods" (PList entries) hdr); [congruence|reflexivity].
Qed.

(** A [connect] run issues the helm lookup and the connectivity check,
    nothing else, and exits with status 0 exactly when the check exits with
    status 0. *)
Theorem connect_run_outcome
  (kubeconfig : option string) (namespace : string) (w : World) :
  run_script json_loads yaml_dump (mkArgs kubeconfig namespace CmdConnect) w
  = (if command_ok w [where_helm w] (cluster_info_command w kubeconfig) then 0 else 1,
     [where_helm w; Exec (cluster_info_command w kubeconfig)]).
Proof.
  unfold run_script, main.
  cbn [bind ret M_Monad args_kubeconfig args_namespace args_command].
  destruct (started_run w kubeconfig namespace) as (helm & -> & _).
  rewrite connect_to_cluster_run. unfold cluster_info_command.
  cbn [self trace log app].
  change (with_kubeconfig (fresh_self kubeconfig namespace helm) "kubectl cluster-info")
    with (with_kubeconfig (fresh_self kubeconfig "" "") "kubectl cluster-info").
  destruct (command_ok w [where_helm w] _); reflexivity.
Qed.

(** A [status] run exits with status 0 exactly when [get_deployment_status]
    returns a record, and with status 1 otherwise; its effects are the helm
    lookup and the queries, and it writes no file. *)
Theorem status_run_outcome
  (kubeconfig : option string) (namespace name : string) (w : World) :
  let query := get_deployment_status json_loads name w (started w kubeconfig namespace) in
  let run := run_script json_loads yaml_dump
               (mkArgs kubeconfig namespace (CmdStatus name)) w in
  fst run = (match fst query with Ok (Some _) => 0 | _ => 1 end) /\
  snd run = trace (snd query) /\
  written (snd run) = [].
Proof.
  cbv zeta. unfold run_script, main.
  cbn [bind ret M_Monad args_kubeconfig args_namespace args_command].
  destruct (started_run w kubeconfig namespace) as (helm & -> & ->).
  destruct (get_deployment_status_total name w
              (mkProc (fresh_self kubeconfig namespace helm) [where_helm w]))
    as (o & evs & -> & Hwritten & Htruthy).
  cbn [fst snd self trace].
  destruct o as [v|].
  - rewrite (Htruthy v eq_refl). cbn. rewrite Hwritten. auto.
  - cbn. rewrite Hwritten. auto.
Qed.

(** A [deploy] run whose policy file cannot be read, or does not decode,
    exits with status 1 before it has written or applied anything. *)
Theorem deploy_run_bad_policy_file
  (kubeconfig : option string) (namespace name image tag : string) (replicas : Z)
  (cpu_request cpu_limit memory_request memory_limit : string)
  (ports : list Z) (path : string) (w : World) :
  str_truthy (Some path) = true ->
  read_file w path = None \/
  (exists text, read_file w path = Some text /\ json_loads text = None) ->
  run_script json_loads yaml_dump
    (mkArgs kubeconfig namespace
       (CmdDeploy name image tag replicas
          cpu_request cpu_limit memory_request memory_limit ports (Some path))) w
  = (1, [where_helm w]).
Proof.
  intros Hpath Hbad. unfold run_script, main.
  cbn [bind ret M_Monad args_kubeconfig args_namespace args_command].
  destruct (started_run w kubeconfig namespace) as (helm & -> & _).
  rewrite Hpath. unfold try_except_Exception, read_text, loads.
  cbn [bind ret M_Monad].
  destruct Hbad as [->|(text & -> & ->)]; reflexivity.
Qed.

(** In a [deploy] run the policy has no effect: [keda_installed] is false
    in a fresh process, so a run with a policy file that loads does exactly
    what the run without [--keda-config] does. *)
Theorem deploy_run_ignores_policy
  (kubeconfig : option string) (namespace name image tag : string) (replicas : Z)
  (cpu_request cpu_limit memory_request memory_limit : string)
  (ports : list Z) (path text : string) (keda_config : pyval) (w : World) :
  str_truthy (Some path) = true ->
  read_file w path = Some text ->
  json_loads text = Some keda_config ->
  run_script json_loads yaml_dump
    (mkArgs kubeconfig namespace
       (CmdDeploy name image tag replicas
          cpu_request cpu_limit memory_request memory_limit ports (Some path))) w
  = run_script json_loads yaml_dump
      (mkArgs kubeconfig namespace
         (CmdDeploy name image tag replicas
            cpu_request cpu_limit memory_request memory_limit ports None)) w.
Proof.
  intros Hpath Hread Hjson. unfold run_script, main.
  cbn [bind ret M_Monad args_kubeconfig args_namespace args_command].
  destruct (started_run w kubeconfig namespace) as (helm & -> & _).
  rewrite Hpath. unfold try_except_Exception, read_text, loads.
  cbn [bind ret M_Monad]. rewrite Hread, Hjson.
  cbn [bind ret M_Monad].
  rewrite !create_deployment_run_plan. cbn [self trace].
  assert (Hplan : forall config,
             deployment_plan yaml_dump w (fresh_self kubeconfig namespace helm)
               name image tag replicas cpu_request cpu_limit memory_request memory_limit
               ports config
             = deployment_plan yaml_dump w (fresh_self kubeconfig namespace helm)
                 name image tag replicas cpu_request cpu_limit memory_request memory_limit
                 ports (PDict [])).
  { intros config. unfold deployment_plan. cbn [fresh_self keda_installed].
    rewrite !andb_false_r. reflexivity. }
  assert (Hok : forall config,
             policy_ok (fresh_self kubeconfig namespace helm) config = true).
  { intros config. unfold policy_ok. cbn [fresh_self keda_installed].
    rewrite andb_false_r. reflexivity. }
  rewrite (Hplan keda_config), !Hok. reflexivity.
Qed.

(** From the parsed command line on ([main] after [parse_args]), every run
    exits with status 0 or 1, and the only files it writes are the workload
    and service manifests of a [deploy]: [connect], [install] and [status]
    write nothing, and a [deploy] run never writes the scaled-object
    manifest.  A command line that [parse_args] refuses never gets this far:
    argparse ends that run itself, with status 2. *)
Theorem run_exit_status_and_files (args : Args) (w : World) :
  (fst (run_script json_loads yaml_dump args w) = 0 \/
   fst (run_script json_loads yaml_dump args w) = 1) /\
  forall path,
    In path (written (snd (run_script json_loads yaml_dump args w))) ->
    match args_command args with
    | CmdDeploy name _ _ _ _ _ _ _ _ _ =>
        path = deployment_file name \/ path = service_file name
    | _ => False
    end.
Proof.
  destruct args as [kcfg ns command]. cbn [args_command].
  destruct command as [|helm keda|name image tag replicas cpu_request cpu_limit
                                  memory_request memory_limit ports keda_path|name].
  - unfold run_script, main.
    cbn [bind ret M_Monad args_kubeconfig args_namespace args_command].
    destruct (started_run w kcfg ns) as (helm & -> & _).
    rewrite connect_to_cluster_run.
    destruct (command_ok w _ _); cbn; (split; [auto|intros path []]).
  - unfold run_script, main.
    cbn [bind ret M_Monad args_kubeconfig args_namespace args_command].
    destruct (started_run w kcfg ns) as (path0 & -> & _).
    set (p1 := mkProc (fresh_self kcfg ns path0) [where_helm w]).
    assert (Hkeda : forall p,
               written (trace p) = [] ->
               let run := (let (r, p0) :=
                             (if keda
                              then ok <- install_keda ;; if negb ok then exit 1 else ret tt
                              else ret tt) w p in (exit_code r, trace p0)) in
               (fst run = 0 \/ fst run = 1) /\ written (snd run) = []).
    { intros p Hp. destruct keda; cbn [bind ret M_Monad]; [|cbn; auto].
      destruct (install_keda_total w p) as (ok & evs & -> & Hw & _).
      destruct ok; cbn; rewrite written_app, Hp, Hw; auto. }
    cbv zeta in Hkeda.
    assert (Hrun : forall p, written (trace p) = [] ->
               let run := (let (r, p0) :=
                             ((if helm
                               then ok <- install_helm ;; if negb ok then exit 1 else ret tt
                               else ret tt) ;;;
                              (if keda
                               then ok <- install_keda ;; if negb ok then exit 1 else ret tt
                               else ret tt)) w p in (exit_code r, trace p0)) in
               (fst run = 0 \/ fst run = 1) /\ written (snd run) = []).
    { intros p Hp. cbv zeta. destruct helm; cbn [bind ret M_Monad]; [|apply Hkeda; exact Hp].
      destruct (install_helm_run w p) as (ok & p' & -> & Hw).
      destruct ok; cbn [negb bind ret M_Monad].
      - apply Hkeda. rewrite Hw. exact Hp.
      - cbn. rewrite Hw. auto. }
    destruct (Hrun p1 eq_refl) as [Hcode Hw].
    cbv zeta in Hcode, Hw. cbn [bind ret M_Monad] in Hcode, Hw |- *.
    split; [exact Hcode|].
    intros path. rewrite Hw. intros [].
  - destruct (main_deploy_run json_loads yaml_dump kcfg ns name image tag replicas
                cpu_request cpu_limit memory_request memory_limit ports keda_path w)
      as [[_ Hrun]|(helm & keda_config & _ & Hrun)]; cbv zeta in Hrun; rewrite Hrun;
      clear Hrun; cbn [fst snd].
    + split; [auto|]. intros path [].
    + set (s := fresh_self kcfg ns helm).
      set (steps := deployment_plan yaml_dump w s name image tag replicas
                      cpu_request cpu_limit memory_request memory_limit ports keda_config).
      pose proof (run_plan_prefix w steps [where_helm w]) as Hprefix.
      destruct (run_plan w [where_helm w] steps) as [evs ok]. cbn [fst snd] in *.
      split; [destruct (ok && policy_ok s keda_config); auto|].
      intros path Hin. cbn [where_helm written] in Hin.
      apply written_In in Hin. destruct Hin as [content Hin].
      apply (prefix_of_In _ _ _ Hprefix) in Hin.
      apply deployment_plan_writes in Hin.
      destruct Hin as [[-> _]|[(-> & _)|(_ & Hkeda & _)]]; auto.
      discriminate.
  - unfold run_script, main.
    cbn [bind ret M_Monad args_kubeconfig args_namespace args_command].
    destruct (started_run w kcfg ns) as (helm & -> & _).
    destruct (get_deployment_status_total name w
                (mkProc (fresh_self kcfg ns helm) [where_helm w]))
      as (o & evs & -> & Hwritten & Htruthy).
    destruct o as [v|]; [rewrite (Htruthy v eq_refl)|];
      cbn; rewrite Hwritten; (split; [auto|intros path []]).
Qed.

(** In an [install --helm] run, a failed helm step ends the run with status
    1 before KEDA is attempted; after a successful one the flag it set lets
    [install_keda] past its gate, so the first KEDA command is issued next. *)
Theorem install_run_helm_then_keda
  (kubeconfig : option string) (namespace : string) (keda : bool) (w : World) :
  let helm_step := install_helm w (started w kubeconfig namespace) in
  (fst helm_step = Ok false ->
   run_script json_loads yaml_dump (mkArgs kubeconfig namespace (CmdInstall true keda)) w
   = (1, trace (snd helm_step))) /\
  (fst helm_step = Ok true ->
   helm_installed (self (snd helm_step)) = true /\
   exists rest,
     snd (run_script json_loads yaml_dump
            (mkArgs kubeconfig namespace (CmdInstall true true)) w)
     = (trace (snd helm_step)
        ++ Exec (hd "" (keda_commands w (self (snd helm_step)))) :: rest)%list).
Proof.
  cbv zeta. unfold run_script, main.
  cbn [bind ret M_Monad args_kubeconfig args_namespace args_command].
  destruct (started_run w kubeconfig namespace) as (helm & -> & ->).
  set (p1 := mkProc (fresh_self kubeconfig namespace helm) [where_helm w]).
  destruct (install_helm_cases w p1) as (ok & helm' & evs & -> & _).
  cbn [fst snd self trace helm_installed]. split.
  - intros H. injection H as ->. reflexivity.
  - intros H. injection H as ->. cbn [negb bind ret M_Monad].
    split; [reflexivity|].
    match goal with
    | |- context [install_keda w ?q] =>
        rewrite (install_keda_run_plan w q) by reflexivity;
        destruct (run_plan_first_command w (trace q) (hd "" (keda_commands w (self q)))
                    (map Exec (tl (keda_commands w (self q))))) as [rest Hrest];
        change (Exec (hd "" (keda_commands w (self q)))
                :: map Exec (tl (keda_commands w (self q))))
          with (map Exec (keda_commands w (self q))) in Hrest;
        destruct (run_plan w (trace q) (map Exec (keda_commands w (self q))))
          as [evs' ok']
    end.
    cbn [fst] in Hrest. subst evs'. cbv zeta.
    match goal with
    | |- context [Ok (ok' && ?b)] => destruct (ok' && b)
    end; cbn [negb bind ret M_Monad exit raise snd trace self]; exists rest; reflexivity.
Qed.

End RunProperties.

(* ------------------------------------------------------------------------ *)
(** ** The further properties on the sample environments *)

(** Helm found where chocolatey puts it, past a first candidate that does not
    exist. *)
Lemma find_helm_path_result_witness :
  find_helm_path chocolatey_world new_proc
  = (Ok (dquote ++ "C:\ProgramData\chocolatey\bin\helm.exe" ++ dquote),
     log (where_helm chocolatey_world) new_proc).
Proof.
  destruct (find_helm_path_result chocolatey_world new_proc)
    as (path & Hrun & _ & _ & _ & Hfirst & _).
  assert (Hpath : path = dquote ++ "C:\ProgramData\chocolatey\bin\helm.exe" ++ dquote).
  { apply (Hfirst (mkCompleted 1 "") ["C:\Program Files\helm.exe"]
             "C:\ProgramData\chocolatey\bin\helm.exe"
             ["C:\Program Files\Helm\bin\helm.exe"]).
    - reflexivity.
    - discriminate.
    - reflexivity.
    - intros c' [<-|[]]. reflexivity.
    - reflexivity. }
  rewrite Hrun, Hpath. reflexivity.
Defined.

(** KEDA is installed into a cluster that then lists its operator. *)
Lemma install_keda_command_sequence_witness :
  helm_installed (self keda_proc) = true /\
  exists evs,
    install_keda keda_world keda_proc
    = (Ok true, mkProc (set_keda_installed true (self keda_proc)) (trace keda_proc ++ evs)) /\
    executed evs = keda_commands keda_world (self keda_proc).
Proof.
  assert (Hhelm : helm_installed (self keda_proc) = true) by reflexivity.
  split; [exact Hhelm|].
  destruct (install_keda_command_sequence keda_world keda_proc Hhelm)
    as (ok & evs & Hrun & _ & _ & _ & Hall & _).
  assert (Hok : ok = true).
  { assert (Hfst : fst (install_keda keda_world keda_proc) = Ok true) by reflexivity.
    rewrite Hrun in Hfst. cbn [fst] in Hfst. injection Hfst as Hfst. exact Hfst. }
  subst ok. exists evs. split; [exact Hrun|]. apply Hall. reflexivity.
Defined.

Lemma pod_ready_stops_at_first_unready_witness :
  container_statuses half_started_pod
  = Ok ([container true 0] ++ container false 4 :: [PDict [("restartCount", PInt 1)]])%list /\
  subscript (PDict [("restartCount", PInt 1)]) "ready" = Raise KeyError /\
  pod_status half_started_pod = Ok (pod_entry "web-d" "Running" false 5).
Proof.
  split; [reflexivity|]. split; [reflexivity|].
  apply (pod_ready_stops_at_first_unready half_started_pod (PStr "web-d") (PStr "Running")
           (PDict [ ("phase", PStr "Running");
                    ("containerStatuses",
                      PList [ container true 0; container false 4;
                              PDict [("restartCount", PInt 1)] ]) ])
           (container false 4) [container true 0] [PDict [("restartCount", PInt 1)]] 5);
    try reflexivity.
  - intros c [<-|[]]. reflexivity.
  - exists (PBool false). split; reflexivity.
Defined.

Lemma pod_status_needs_every_restart_count_witness :
  container_statuses uncounted_pod
  = Ok [container true 0; PDict [("ready", PBool true)]] /\
  subscript (PDict [("ready", PBool true)]) "restartCount" = Raise KeyError /\
  exists e, pod_status uncounted_pod = Raise e.
Proof.
  split; [reflexivity|]. split; [reflexivity|].
  apply (pod_status_needs_every_restart_count uncounted_pod (PDict [("ready", PBool true)])
           [container true 0; PDict [("ready", PBool true)]] KeyError);
    [reflexivity|right; left; reflexivity|reflexivity].
Defined.

(** The sample deployment reports no available replicas: the record says 0. *)
Lemma status_replica_defaults_witness :
  get_deployment_status sample_loads "web" status_world web_proc
  = (Ok (Some web_status), mkProc (self web_proc) (trace web_proc ++ web_queries)) /\
  lookup_path ["status"; "availableReplicas"] sample_deployment = None /\
  subscript web_status "available_replicas" = Ok (PInt 0) /\
  subscript web_status "ready_replicas" = Ok (PInt 1).
Proof.
  assert (Hrun : get_deployment_status sample_loads "web" status_world web_proc
                 = (Ok (Some web_status),
                    mkProc (self web_proc) (trace web_proc ++ web_queries)))
    by reflexivity.
  split; [exact Hrun|]. split; [reflexivity|].
  destruct (status_replica_defaults sample_loads "web" status_world web_proc _ _ Hrun)
    as (out & deployment & kvs & Hout & Hd & Hst & _ & Hready & Havailable & _).
  vm_compute in Hout. injection Hout as <-.
  vm_compute in Hd. injection Hd as <-.
  vm_compute in Hst. injection Hst as <-.
  split; [exact Havailable|exact Hready].
Defined.

Lemma status_without_status_dict_witness :
  answer no_status_world (trace web_proc)
    (deployment_query no_status_world (self web_proc) "web")
  = Some "<deployment without status>" /\
  other_loads "<deployment without status>" = Some (PDict [("kind", PStr "Deployment")]) /\
  get_deployment_status other_loads "web" no_status_world web_proc
  = (Ok None,
     log (Exec (deployment_query no_status_world (self web_proc) "web")) web_proc).
Proof.
  split; [reflexivity|]. split; [reflexivity|].
  apply (status_without_status_dict other_loads "web" no_status_world web_proc
           "<deployment without status>" (PDict [("kind", PStr "Deployment")]));
    [reflexivity|reflexivity|].
  intros kvs. discriminate.
Defined.

Lemma status_lost_on_malformed_pod_witness :
  pod_status (PDict [("status", PDict [("phase", PStr "Pending")])]) = Raise KeyError /\
  fst (get_deployment_status other_loads "web" broken_pod_world web_proc) = Ok None.
Proof.
  split; [reflexivity|].
  apply (status_lost_on_malformed_pod other_loads "web" broken_pod_world web_proc
           "<pods, one without metadata>"
           (PDict [("items", PList [ pod "web-a" "Running" (Some [container true 1]);
                                     PDict [("status", PDict [("phase", PStr "Pending")])] ])])
           (PDict [("status", PDict [("phase", PStr "Pending")])])
           [ pod "web-a" "Running" (Some [container true 1]);
             PDict [("status", PDict [("phase", PStr "Pending")])] ]
           KeyError);
    [reflexivity|reflexivity|reflexivity|right; left; reflexivity|reflexivity].
Defined.

Lemma deploy_applies_what_it_wrote_witness :
  effects_of keda_proc
    (snd (create_deployment sample_dump "web" "nginx" "1.25" 3
            "100m" "500m" "128Mi" "512Mi" (Some [8080]) None healthy_world keda_proc))
  = ([ Write "web-deployment.yaml" "<yaml Deployment>";
       Exec "kubectl apply -f web-deployment.yaml --kubeconfig=admin.conf";
       Write "web-service.yaml" "<yaml Service>" ]
     ++ Exec "kubectl apply -f web-service.yaml --kubeconfig=admin.conf" :: [])%list /\
  exists h' path content,
    [ Write "web-deployment.yaml" "<yaml Deployment>";
      Exec "kubectl apply -f web-deployment.yaml --kubeconfig=admin.conf";
      Write "web-service.yaml" "<yaml Service>" ]
    = (h' ++ [Write path content])%list /\
    "kubectl apply -f web-service.yaml --kubeconfig=admin.conf"
    = apply_command healthy_world (self keda_proc) path.
Proof.
  assert (H : effects_of keda_proc
                (snd (create_deployment sample_dump "web" "nginx" "1.25" 3
                        "100m" "500m" "128Mi" "512Mi" (Some [8080]) None
                        healthy_world keda_proc))
              = ([ Write "web-deployment.yaml" "<yaml Deployment>";
                   Exec "kubectl apply -f web-deployment.yaml --kubeconfig=admin.conf";
                   Write "web-service.yaml" "<yaml Service>" ]
                 ++ Exec "kubectl apply -f web-service.yaml --kubeconfig=admin.conf" :: [])%list)
    by reflexivity.
  split; [exact H|].
  destruct (deploy_applies_what_it_wrote sample_dump "web" "nginx" "1.25" 3
              "100m" "500m" "128Mi" "512Mi" (Some [8080]) None healthy_world keda_proc
              _ _ _ H) as (h' & path & content & Hh & Hc & _).
  exists h', path, content. auto.
Defined.

Lemma written_manifests_agree_witness :
  In (Write "web-service.yaml" "<yaml Service>")
    (effects_of keda_proc
       (snd (create_deployment sample_dump "web" "nginx" "1.25" 3
               "100m" "500m" "128Mi" "512Mi" (Some [8080]) None healthy_world keda_proc))) /\
  exists doc,
    "<yaml Service>" = sample_dump doc /\
    lookup_path ["metadata"; "namespace"] doc = Some (PStr "default").
Proof.
  assert (H : In (Write "web-service.yaml" "<yaml Service>")
                (effects_of keda_proc
                   (snd (create_deployment sample_dump "web" "nginx" "1.25" 3
                           "100m" "500m" "128Mi" "512Mi" (Some [8080]) None
                           healthy_world keda_proc))))
    by found.
  split; [exact H|].
  destruct (written_manifests_agree sample_dump "web" "nginx" "1.25" 3
              "100m" "500m" "128Mi" "512Mi" (Some [8080]) None healthy_world keda_proc
              _ _ H) as (doc & Hdoc & Hns & _).
  exists doc. auto.
Defined.

Lemma deploy_rejects_non_dict_policy_witness :
  keda_installed (self keda_proc) = true /\
  truthy (PList [PInt 1]) = true /\
  fst (create_deployment sample_dump "web" "nginx" "1.25" 3
         "100m" "500m" "128Mi" "512Mi" (Some [8080]) (Some (PList [PInt 1]))
         healthy_world keda_proc) = Ok false.
Proof.
  split; [reflexivity|]. split; [reflexivity|].
  destruct (deploy_rejects_non_dict_policy sample_dump "web" "nginx" "1.25" 3
              "100m" "500m" "128Mi" "512Mi" (Some [8080]) (PList [PInt 1])
              healthy_world keda_proc) as [Hrun _];
    [reflexivity|reflexivity|intros kvs; discriminate|].
  rewrite Hrun. reflexivity.
Defined.

Lemma deploy_run_bad_policy_file_witness :
  str_truthy (Some "policy.json") = true /\
  read_file unreachable_world "policy.json" = None /\
  run_script sample_loads sample_dump
    (mkArgs None "default" (deploy_web_with [80] (Some "policy.json"))) unreachable_world
  = (1, [where_helm unreachable_world]).
Proof.
  split; [reflexivity|]. split; [reflexivity|].
  apply (deploy_run_bad_policy_file sample_loads sample_dump None "default"
           "web" "nginx" "1.25" 3 "100m" "500m" "128Mi" "512Mi" [80] "policy.json"
           unreachable_world);
    [reflexivity|left; reflexivity].
Defined.

Lemma deploy_run_ignores_policy_witness :
  str_truthy (Some "policy.json") = true /\
  read_file policy_world "policy.json" = Some "<policy>" /\
  other_loads "<policy>" = Some sample_policy /\
  run_script other_loads sample_dump
    (mkArgs None "default" (deploy_web_with [80] (Some "policy.json"))) policy_world
  = run_script other_loads sample_dump
      (mkArgs None "default" (deploy_web_with [80] None)) policy_world.
Proof.
  split; [reflexivity|]. split; [reflexivity|]. split; [reflexivity|].
  apply (deploy_run_ignores_policy other_loads sample_dump None "default"
           "web" "nginx" "1.25" 3 "100m" "500m" "128Mi" "512Mi" [80]
           "policy.json" "<policy>" sample_policy policy_world);
    reflexivity.
Defined.
